(** * Wine ETL pipelines: reconciliation, quality gate, z-score classification

    A shallow embedding of the three pipeline revisions of the repository
    ([etl_vins.py], [etl_vins2.py], [etl_vins_fix.py]) and the properties of
    their join, metric, quality-gate, audit and remediation stages.

    Modelling conventions.
    - A data frame is the list of its rows, in index order; a row is a record
      of its columns.  A stage that adds a column returns rows of a wider
      record.
    - A float column holds [num = option R]: [None] is NaN, [Some x] the
      number [x].  Arithmetic is exact real arithmetic: binary64 rounding
      and the infinities are not modelled.
    - A nullable key column ([Int64], or cleaned text) holds an [option];
      [pd.merge] and [isin] match a null key with a null key, which is what
      equality on [option] does.
    - Text-to-number parsing ([pd.read_csv], [pd.to_numeric]) is abstracted by
      [cell]: a raw cell is text that parses to a value, a missing cell, or
      text that does not parse.

    Inputs covered.  The embedding follows the runs in which no statement
    raises and every number is finite:
    - a parsed cell holds a finite number (the text "inf" is not covered);
    - a parsed key, sales or stock cell holds an integer of the [Int64]
      range: on any other number [astype('Int64')] raises, which for the keys
      of [etl_vins_fix.py] switches to text keys and elsewhere ends the run
      in the handler of the caller;
    - a test such as [std_price == 0] is decided on the exact value, where
      the program decides it on the rounded one. *)

From Stdlib Require Import Reals Lra Lia ZArith Bool Ascii String List Permutation.
Import ListNotations.

Open Scope R_scope.

(** ** Nullable numbers and raw cells *)

Module Num.

Definition num : Type := option R.

Definition Reqb (x y : R) : bool := if Req_dec_T x y then true else false.
Definition Rltb (x y : R) : bool := if Rlt_dec x y then true else false.
Definition Rleb (x y : R) : bool := if Rle_dec x y then true else false.

(** [a * b] on float columns: NaN is absorbing. *)
Definition nmul (a b : num) : num :=
  match a, b with
  | Some x, Some y => Some (x * y)
  | _, _ => None
  end.

(** Comparisons of a column with a scalar: every comparison with NaN is
    [False]. *)
Definition n_eq (a : num) (t : R) : bool :=
  match a with Some x => Reqb x t | None => false end.
Definition n_gt (a : num) (t : R) : bool :=
  match a with Some x => Rltb t x | None => false end.
Definition n_le (a : num) (t : R) : bool :=
  match a with Some x => Rleb x t | None => false end.

(** [np.abs]. *)
Definition n_abs (a : num) : num := option_map Rabs a.

(** [x / y] of numpy on finite floats: [0/0] is NaN and [x/0] is an
    infinity; neither is a number, and in [zscore] below the divisor vanishes
    only together with every dividend (lemma [pop_std_zero]), so only the NaN
    case arises. *)
Definition np_divide (x y : R) : num :=
  if Reqb y 0 then None else Some (x / y).

(** A raw cell as read from a delimited file. *)
Inductive cell (A : Type) : Type :=
| Parsed (a : A)
| Blank
| Unparsed (s : string).
Arguments Parsed {A} a.
Arguments Blank {A}.
Arguments Unparsed {A} s.

(** [pd.to_numeric(col, errors='coerce')]. *)
Definition to_numeric {A} (c : cell A) : option A :=
  match c with
  | Parsed a => Some a
  | Blank | Unparsed _ => None
  end.

(** [col.fillna(v)] on a raw column: only missing cells are filled. *)
Definition fillna_cell {A} (v : A) (c : cell A) : cell A :=
  match c with
  | Blank => Parsed v
  | _ => c
  end.

(** [col.fillna(v)] on a numeric column. *)
Definition fillna (v : R) (a : num) : R :=
  match a with Some x => x | None => v end.

Definition notna {A} (a : option A) : bool :=
  match a with Some _ => true | None => false end.

Definition isna {A} (a : option A) : bool := negb (notna a).

End Num.
Import Num.

(** ** Column statistics *)

Module Stats.

Definition sum (l : list R) : R := fold_right Rplus 0 l.

(** The non-null values of a float column, in order. *)
Fixpoint dropna (l : list num) : list R :=
  match l with
  | [] => []
  | Some x :: l' => x :: dropna l'
  | None :: l' => dropna l'
  end.

Definition hasnans (l : list num) : bool := existsb isna l.

Definition avg (xs : list R) : R := sum xs / INR (length xs).

(** Sum of squared deviations from the average. *)
Definition sqdev (xs : list R) : R :=
  sum (map (fun x => (x - avg xs) * (x - avg xs)) xs).

(** [Series.sum()]: NaN cells are skipped. *)
Definition pd_sum (l : list num) : R := sum (dropna l).

(** [Series.mean()]: NaN cells are skipped; NaN on an empty column. *)
Definition pd_mean (l : list num) : num :=
  match dropna l with
  | [] => None
  | xs => Some (avg xs)
  end.

(** [Series.std()]: NaN cells are skipped, one delta degree of freedom; NaN
    when fewer than two values are left. *)
Definition pd_std (l : list num) : num :=
  let xs := dropna l in
  if (length xs <=? 1)%nat then None
  else Some (sqrt (sqdev xs / (INR (length xs) - 1))).

(** The standard deviation [zscore] divides by: zero delta degrees of
    freedom. *)
Definition pop_std (xs : list R) : R := sqrt (sqdev xs / INR (length xs)).

(** [scipy.stats.zscore(a)] with its defaults ([ddof=0],
    [nan_policy='propagate']): a NaN anywhere makes every score NaN. *)
Definition zscore (l : list num) : list num :=
  if hasnans l then map (fun _ => None) l
  else
    let xs := dropna l in
    map (fun x => np_divide (x - avg xs) (pop_std xs)) xs.

(** [np.isclose(a, b, atol=atol)]: the relative tolerance keeps its default,
    [rtol = 1e-05]. *)
Definition rtol_default : R := 1 / 100000.

Definition isclose (a b atol : R) : bool :=
  Rleb (Rabs (a - b)) (atol + rtol_default * Rabs b).

End Stats.
Import Stats.

(** ** Relational joins on data frames *)

Module Frame.

Section Merge.
Context {Lt Rt K : Type}.
Variable key_eqb : K -> K -> bool.
Variable left_on : Lt -> K.
Variable right_on : Rt -> K.

(** The rows of the right frame whose key equals the key of [l], in the
    order of the right frame. *)
Definition matches (l : Lt) (rs : list Rt) : list Rt :=
  filter (fun r => key_eqb (left_on l) (right_on r)) rs.

(** [pd.merge(ls, rs, how='left')]: every left row is kept, in order; a
    left row without a match carries nulls in the right columns
    ([None]); a left row with several matches is repeated. *)
Definition merge_left (ls : list Lt) (rs : list Rt) : list (Lt * option Rt) :=
  flat_map
    (fun l =>
       match matches l rs with
       | [] => [(l, None)]
       | ms => map (fun r => (l, Some r)) ms
       end)
    ls.

(** [pd.merge(ls, rs, how='inner')]: only matched pairs, in the order of
    the left keys. *)
Definition merge_inner (ls : list Lt) (rs : list Rt) : list (Lt * Rt) :=
  flat_map (fun l => map (fun r => (l, r)) (matches l rs)) ls.
End Merge.

(** Key equality on nullable keys: null matches null. *)
Definition okey_eqb {A} (eqb : A -> A -> bool) (a b : option A) : bool :=
  match a, b with
  | Some x, Some y => eqb x y
  | None, None => true
  | _, _ => false
  end.

Definition zkey_eqb : option Z -> option Z -> bool := okey_eqb Z.eqb.
Definition skey_eqb : option string -> option string -> bool :=
  okey_eqb String.eqb.

(** [col.isin(values)]. *)
Definition isin {A} (eqb : A -> A -> bool) (values : list A) (a : A) : bool :=
  existsb (eqb a) values.

(** [col.duplicated()]: a row is marked when its key occurred in an earlier
    row. *)
Fixpoint duplicated_from {A} (eqb : A -> A -> bool) (seen : list A)
         (keys : list A) : list bool :=
  match keys with
  | [] => []
  | k :: ks => isin eqb seen k :: duplicated_from eqb (k :: seen) ks
  end.

Definition duplicated {A} (eqb : A -> A -> bool) (keys : list A) : list bool :=
  duplicated_from eqb [] keys.

Definition count_true (bs : list bool) : nat := length (filter (fun b : bool => b) bs).

(** [df.drop_duplicates(subset=[key], keep='first')]. *)
Fixpoint drop_duplicates_from {A T} (eqb : A -> A -> bool) (key : T -> A)
         (seen : list A) (rows : list T) : list T :=
  match rows with
  | [] => []
  | r :: rs =>
      if isin eqb seen (key r)
      then drop_duplicates_from eqb key seen rs
      else r :: drop_duplicates_from eqb key (key r :: seen) rs
  end.

Definition drop_duplicates {A T} (eqb : A -> A -> bool) (key : T -> A)
           (rows : list T) : list T :=
  drop_duplicates_from eqb key [] rows.

End Frame.
Import Frame.

(** ** [etl_vins.py] and [etl_vins2.py]: the reporting pipeline

    Both revisions share [charger_et_joindre_donnees] and
    [transformer_et_enrichir_donnees] line for line; [etl_vins2.py] adds the
    premium / ordinary exports. *)

Module EtlVins.

(** The three sources as [pd.read_csv] returns them. *)
Record erp_raw : Type := {
  erp_product_id : cell Z;
  erp_price : cell R;          (* text with a decimal comma *)
  erp_stock_quantity : cell Z;
  erp_stock_status : option string
}.

Record web_raw : Type := {
  web_sku : cell Z;
  web_post_type : option string;
  web_total_sales : cell R
}.

Record liaison_raw : Type := {
  liaison_product_id : cell Z;
  liaison_id_web : cell Z
}.

(** [df_web[['id_web', 'total_sales']]], after [sku] was renamed [id_web]
    and coerced to [Int64]. *)
Record web_sales : Type := {
  ws_id_web : option Z;
  ws_total_sales : cell R
}.

Definition df_web_sales (df_web : list web_raw) : list web_sales :=
  map (fun w => {| ws_id_web := to_numeric (web_sku w);
                   ws_total_sales := web_total_sales w |}) df_web.

(** The key columns after [pd.to_numeric(..., errors='coerce')]. *)
Definition erp_key (e : erp_raw) : option Z := to_numeric (erp_product_id e).
Definition liaison_key (l : liaison_raw) : option Z :=
  to_numeric (liaison_product_id l).

(** Column [id_web] of [df_merged]: null where the ERP row has no link. *)
Definition merged_id_web (m : erp_raw * option liaison_raw) : option Z :=
  match snd m with
  | Some l => to_numeric (liaison_id_web l)
  | None => None
  end.

(** A row of [df_final] once its columns are cleaned. *)
Record coherent_row : Type := {
  product_id : option Z;
  price : num;
  stock_quantity : cell Z;
  stock_status : option string;
  id_web : option Z;
  total_sales : num
}.

(** Column [total_sales] of the joined frame before cleaning: null where no
    web row matched. *)
Definition joined_total_sales (w : option web_sales) : cell R :=
  match w with
  | Some ws => ws_total_sales ws
  | None => Blank
  end.

(** Step 4 of [charger_et_joindre_donnees] on one joined row: decimal comma,
    [to_numeric] on the price; [fillna(0)] then [to_numeric] on the sales. *)
Definition nettoyer (j : (erp_raw * option liaison_raw) * option web_sales)
  : coherent_row :=
  let e := fst (fst j) in
  {| product_id := erp_key e;
     price := to_numeric (erp_price e);
     stock_quantity := erp_stock_quantity e;
     stock_status := erp_stock_status e;
     id_web := merged_id_web (fst j);
     total_sales := to_numeric (fillna_cell 0 (joined_total_sales (snd j))) |}.

Definition df_merged (df_erp : list erp_raw) (df_liaison : list liaison_raw)
  : list (erp_raw * option liaison_raw) :=
  merge_left zkey_eqb erp_key liaison_key df_erp df_liaison.

Definition df_joined (df_erp : list erp_raw) (df_liaison : list liaison_raw)
           (df_web : list web_raw)
  : list ((erp_raw * option liaison_raw) * option web_sales) :=
  merge_left zkey_eqb merged_id_web ws_id_web
             (df_merged df_erp df_liaison) (df_web_sales df_web).

(** [charger_et_joindre_donnees], from the three frames read. *)
Definition charger_et_joindre_donnees
           (df_erp : list erp_raw) (df_web : list web_raw)
           (df_liaison : list liaison_raw) : list coherent_row :=
  let df_final := map nettoyer (df_joined df_erp df_liaison df_web) in
  (* df_final.dropna(subset=['price'], inplace=True) *)
  filter (fun r => notna (price r)) df_final.

Record enriched_row : Type := {
  base : coherent_row;
  CA_produit : num;
  Z_Score_Prix : num;
  est_millesime : bool
}.

Definition seuil_millesime : R := 2.

(** Column [Z_Score_Prix]: the constant 0 when [std_price == 0], the scipy
    z-score otherwise.  The test is on the exact standard deviation: it holds
    on every column of two or more equal prices, where the rounded standard
    deviation of the program may differ from 0. *)
Definition z_score_prix (df_coherent : list coherent_row) : list num :=
  let std_price := pd_std (map price df_coherent) in
  if n_eq std_price 0
  then map (fun _ => Some 0) df_coherent
  else zscore (map price df_coherent).

Definition enrichir (rz : coherent_row * num) : enriched_row :=
  {| base := fst rz;
     CA_produit := nmul (price (fst rz)) (total_sales (fst rz));
     Z_Score_Prix := snd rz;
     est_millesime := n_gt (snd rz) seuil_millesime |}.

(** [transformer_et_enrichir_donnees]. *)
Definition transformer_et_enrichir_donnees (df_coherent : list coherent_row)
  : list enriched_row :=
  map enrichir (combine df_coherent (z_score_prix df_coherent)).

(** The whole run of the script body. *)
Definition run (df_erp : list erp_raw) (df_web : list web_raw)
           (df_liaison : list liaison_raw) : list enriched_row :=
  transformer_et_enrichir_donnees
    (charger_et_joindre_donnees df_erp df_web df_liaison).

End EtlVins.

Module EtlVins2.
Import EtlVins.

(** Lines 93-94 of [exporter_rapports]: the two frames exported as
    [vins_premium.csv] and [vins_ordinaires.csv]. *)
Definition df_premium (df_enriched : list enriched_row) : list enriched_row :=
  filter (fun r => n_gt (Z_Score_Prix r) seuil_millesime) df_enriched.

Definition df_ordinaire (df_enriched : list enriched_row) : list enriched_row :=
  filter (fun r => n_le (Z_Score_Prix r) seuil_millesime) df_enriched.

(** [cols_export]. *)
Definition cols_export (r : enriched_row)
  : option Z * option Z * num * num * num * num :=
  (product_id (base r), id_web (base r), price (base r),
   total_sales (base r), CA_produit r, Z_Score_Prix r).

Record exports : Type := {
  vins_premium_csv : list (option Z * option Z * num * num * num * num);
  vins_ordinaires_csv : list (option Z * option Z * num * num * num * num)
}.

Definition exporter_rapports (df_enriched : list enriched_row) : exports :=
  {| vins_premium_csv := map cols_export (df_premium df_enriched);
     vins_ordinaires_csv := map cols_export (df_ordinaire df_enriched) |}.

End EtlVins2.

(** ** [etl_vins_fix.py]: the audited pipeline *)

Module EtlVinsFix.

Definition EXPECTED_CA : R := 7056860 / 100.

(** *** Key cleaning *)

(** The characters [str.strip()] removes, among the code points of a
    Latin-1 text. *)
Definition is_space (c : ascii) : bool :=
  let n := nat_of_ascii c in
  ((9 <=? n) && (n <=? 13) || (28 <=? n) && (n <=? 32)
   || (n =? 133) || (n =? 160))%nat.

Fixpoint lstrip (s : string) : string :=
  match s with
  | EmptyString => EmptyString
  | String c s' => if is_space c then lstrip s' else s
  end.

Definition reverse (s : string) : string :=
  string_of_list_ascii (rev (list_ascii_of_string s)).

Definition strip (s : string) : string :=
  reverse (lstrip (reverse (lstrip s))).

(** [clean_id_column] on one text cell: [astype(str)] writes a missing cell
    as ["nan"]; after [strip], the texts ["nan"] and [""] become null. *)
Definition clean_id (c : option string) : option string :=
  let s := strip (match c with Some s => s | None => "nan"%string end) in
  if (s =? "nan")%string then None
  else if (s =? "")%string then None
  else Some s.

(** *** The three frames *)

Record web_raw : Type := {
  raw_sku : option string;
  raw_post_type : option string;
  raw_post_title : option string;
  raw_total_sales : cell R
}.

Record erp_raw : Type := {
  raw_product_id : cell Z;
  raw_price : cell R;          (* text with a decimal comma *)
  raw_stock_quantity : cell R;
  raw_stock_status : option string
}.

Record liaison_raw : Type := {
  raw_liaison_product_id : cell Z;
  raw_id_web : option string
}.

Record web_row : Type := {
  sku : option string;
  post_type : option string;
  post_title : option string;
  total_sales : R
}.

Record erp_row : Type := {
  product_id : option Z;
  price : num;
  stock_quantity : R;
  stock_status : option string
}.

Record liaison_row : Type := {
  liaison_product_id : option Z;
  id_web : option string
}.

(** [load_and_clean_data], after the three [pd.read_csv]: keys cleaned,
    [product_id] coerced to [Int64], price coerced, sales and stock coerced
    with nulls filled by 0.  This is the path on which no [astype('Int64')]
    raises: the fallback of lines 56-59 to text keys, taken when a
    [product_id] is not an integer, and the failure of lines 66 and 69 on a
    sales or stock cell that is not an integer are not covered. *)
Definition clean_web (w : web_raw) : web_row :=
  {| sku := clean_id (raw_sku w);
     post_type := raw_post_type w;
     post_title := raw_post_title w;
     total_sales := fillna 0 (to_numeric (raw_total_sales w)) |}.

Definition clean_erp (e : erp_raw) : erp_row :=
  {| product_id := to_numeric (raw_product_id e);
     price := to_numeric (raw_price e);
     stock_quantity := fillna 0 (to_numeric (raw_stock_quantity e));
     stock_status := raw_stock_status e |}.

Definition clean_liaison (l : liaison_raw) : liaison_row :=
  {| liaison_product_id := to_numeric (raw_liaison_product_id l);
     id_web := clean_id (raw_id_web l) |}.

Definition load_and_clean_data
           (web : list web_raw) (erp : list erp_raw) (liaison : list liaison_raw)
  : list web_row * list erp_row * list liaison_row :=
  (map clean_web web, map clean_erp erp, map clean_liaison liaison).

(** *** Join *)

(** A row of [df_final]: the columns of the ERP row, of the link and of the
    web row it was joined with. *)
Definition final_row : Type := (erp_row * liaison_row) * web_row.

Definition f_erp (r : final_row) : erp_row := fst (fst r).
Definition f_liaison (r : final_row) : liaison_row := snd (fst r).
Definition f_web (r : final_row) : web_row := snd r.

Definition is_product (w : web_row) : bool :=
  match post_type w with
  | Some t => (t =? "product")%string
  | None => false
  end.

Definition web_products (df_web : list web_row) : list web_row :=
  filter is_product df_web.

(** [df_liaison.dropna(subset=['id_web', 'product_id'])]. *)
Definition liaison_clean (df_liaison : list liaison_row) : list liaison_row :=
  filter (fun l => notna (id_web l) && notna (liaison_product_id l)) df_liaison.

Definition transform_and_join
           (df_web : list web_row) (df_erp : list erp_row)
           (df_liaison : list liaison_row)
  : list final_row * list web_row * list erp_row * list liaison_row :=
  let df_web_products := web_products df_web in
  let df_liaison_clean := liaison_clean df_liaison in
  let df_merged_erp_liaison :=
    merge_inner zkey_eqb product_id liaison_product_id
                df_erp df_liaison_clean in
  let df_final :=
    merge_inner skey_eqb (fun m => id_web (snd m)) sku
                df_merged_erp_liaison df_web_products in
  (df_final, df_web_products, df_erp, df_liaison_clean).

(** *** Quality gate *)

Inductive status : Type := SUCCES | ECHEC.

Definition status_of (b : bool) : status := if b then SUCCES else ECHEC.

(** [df_final] once [run_data_quality_checks] has added column [CA]. *)
Record checked_row : Type := {
  row : final_row;
  CA : num
}.

Definition add_CA (r : final_row) : checked_row :=
  {| row := r;
     CA := nmul (price (f_erp r)) (Some (total_sales (f_web r))) |}.

Definition expected_count : nat := 714.

Record dq_report : Type := {
  df_checked : list checked_row;   (* [df_final], mutated in place *)
  final_count : nat;
  status_count : status;
  calculated_ca : R;
  status_ca : status;
  ca_diff : R;
  dq_passed : bool                 (* the value returned *)
}.

Definition run_data_quality_checks (df_final : list final_row) : dq_report :=
  let df := map add_CA df_final in
  let ca := pd_sum (map CA df) in
  let count_ok := (length df =? expected_count)%nat in
  let is_ca_success := isclose ca EXPECTED_CA (1 / 100) in
  {| df_checked := df;
     final_count := length df;
     status_count := status_of count_ok;
     calculated_ca := ca;
     status_ca := status_of is_ca_success;
     ca_diff := ca - EXPECTED_CA;
     dq_passed := count_ok && is_ca_success |}.

(** *** Integrity and anomaly audit *)

Definition outlier_threshold : R := 3.

(** The rows of [df_final] with a price, paired with that price
    ([prices], with its index). *)
Fixpoint priced (df : list checked_row) : list (checked_row * R) :=
  match df with
  | [] => []
  | r :: df' =>
      match price (f_erp (row r)) with
      | Some p => (r, p) :: priced df'
      | None => priced df'
      end
  end.

(** [z_scores], and [outliers] with its column [Z_Score]. *)
Definition z_scores (df : list checked_row) : list num :=
  zscore (map (fun rp => Some (snd rp)) (priced df)).

Definition outliers (df : list checked_row) : list (checked_row * num) :=
  filter (fun rz => n_gt (n_abs (snd rz)) outlier_threshold)
         (combine (map fst (priced df)) (z_scores df)).

Definition web_duplicates (df_web_products : list web_row) : nat :=
  count_true (duplicated skey_eqb (map sku df_web_products)).

Definition erp_duplicates (df_erp : list erp_row) : nat :=
  count_true (duplicated zkey_eqb (map product_id df_erp)).

Definition erp_without_web (df_erp : list erp_row)
           (df_liaison_clean : list liaison_row) : list erp_row :=
  filter (fun e => negb (isin zkey_eqb (map liaison_product_id df_liaison_clean)
                              (product_id e))) df_erp.

Definition web_without_erp (df_web_products : list web_row)
           (df_liaison_clean : list liaison_row) : list web_row :=
  filter (fun w => negb (isin skey_eqb (map id_web df_liaison_clean) (sku w)))
         df_web_products.

(** [run_advanced_dq_checks]: the two values it returns. *)
Definition run_advanced_dq_checks
           (df_final : list checked_row) (df_web_products : list web_row)
           (df_erp : list erp_row) (df_liaison_clean : list liaison_row)
  : nat * list web_row :=
  (web_duplicates df_web_products,
   web_without_erp df_web_products df_liaison_clean).

(** *** Remediation *)

(** Correction 1: the de-duplicated web frame, a local of
    [handle_anomalies] that nothing reads afterwards. *)
Definition df_web_products_cleaned (df_web_products : list web_row)
           (web_duplicates_count : nat) : list web_row :=
  if (0 <? web_duplicates_count)%nat
  then drop_duplicates skey_eqb sku df_web_products
  else df_web_products.

Definition critical_unlinked_skus (web_without_erp_df : list web_row)
  : list (option string) :=
  map sku web_without_erp_df.

Definition f_sku (r : checked_row) : option string := sku (f_web (row r)).

Definition handle_anomalies
           (df_final : list checked_row) (df_web_products : list web_row)
           (web_duplicates_count : nat) (web_without_erp_df : list web_row)
  : list checked_row :=
  let _cleaned := df_web_products_cleaned df_web_products web_duplicates_count in
  let skus := critical_unlinked_skus web_without_erp_df in
  if (0 <? length skus)%nat
  then filter (fun r => negb (isin skey_eqb skus (f_sku r))) df_final
  else df_final.

(** The count Correction 2 prints: rows it excluded. *)
Definition correction2_dropped
           (df_final : list checked_row) (df_web_products : list web_row)
           (web_duplicates_count : nat) (web_without_erp_df : list web_row)
  : nat :=
  length df_final
  - length (handle_anomalies df_final df_web_products web_duplicates_count
                             web_without_erp_df).

(** *** The pipeline

    [etl_pipeline] is the body of the [try] block: a run in which a stage
    raises ends in the [except] handler without reaching the quality stage,
    and is not covered. *)

Inductive stage : Type :=
| Chargement | Jointure | ControleQualite | TestsIntegrite
| GestionAnomalies | PreparationMigration.

Record run_result : Type := {
  stages : list stage;                        (* stages entered, in order *)
  report : dq_report;
  df_migratable : option (list checked_row)   (* [None]: never built *)
}.

Definition etl_pipeline
           (web : list web_raw) (erp : list erp_raw) (liaison : list liaison_raw)
  : run_result :=
  let '(df_web, df_erp, df_liaison) := load_and_clean_data web erp liaison in
  let '(df_final, df_web_products, df_erp_cleaned, df_liaison_cleaned) :=
    transform_and_join df_web df_erp df_liaison in
  let dq := run_data_quality_checks df_final in
  if negb (dq_passed dq)
  then {| stages := [Chargement; Jointure; ControleQualite];
          report := dq;
          df_migratable := None |}
  else
    let '(web_duplicates_count, web_without_erp_df) :=
      run_advanced_dq_checks (df_checked dq) df_web_products
                             df_erp_cleaned df_liaison_cleaned in
    {| stages := [Chargement; Jointure; ControleQualite; TestsIntegrite;
                  GestionAnomalies; PreparationMigration];
       report := dq;
       df_migratable :=
         Some (handle_anomalies (df_checked dq) df_web_products
                                web_duplicates_count web_without_erp_df) |}.

End EtlVinsFix.

(** ** Sample frames and the vocabulary of the statements *)

Module FixSamples.
Import EtlVinsFix.

Definition erp_one : list erp_raw :=
  [ {| raw_product_id := Parsed 1%Z; raw_price := Parsed 10;
       raw_stock_quantity := Parsed 5; raw_stock_status := Some "instock"%string |} ].

Definition liaison_one : list liaison_raw :=
  [ {| raw_liaison_product_id := Parsed 1%Z; raw_id_web := Some "7"%string |} ].

(** Two product rows of the web frame with the same [sku]. *)
Definition web_dup : list web_raw :=
  [ {| raw_sku := Some "7"%string; raw_post_type := Some "product"%string;
       raw_post_title := Some "Cuvee A"%string; raw_total_sales := Parsed 4 |};
    {| raw_sku := Some " 7"%string; raw_post_type := Some "product"%string;
       raw_post_title := Some "Cuvee B"%string; raw_total_sales := Parsed 2 |} ].

(** One reconciled row worth 70569.00. *)
Definition df_final_70569 : list final_row :=
  [ ( {| product_id := Some 1%Z; price := Some 70569; stock_quantity := 5;
         stock_status := Some "instock"%string |},
      {| liaison_product_id := Some 1%Z; id_web := Some "7"%string |},
      {| sku := Some "7"%string; post_type := Some "product"%string;
         post_title := Some "Cuvee A"%string; total_sales := 1 |} ) ].

End FixSamples.

Module VinsSamples.
Import EtlVins.

Definition erp_of (id : Z) (p : cell R) : erp_raw :=
  {| erp_product_id := Parsed id; erp_price := p;
     erp_stock_quantity := Parsed 5%Z;
     erp_stock_status := Some "instock"%string |}.

(** One product priced 10. *)
Definition erp_10 : list erp_raw := [ erp_of 1 (Parsed 10) ].

(** One product whose price cell is not a number. *)
Definition erp_bad_price : list erp_raw :=
  [ erp_of 1 (Unparsed "sur devis") ].

Definition liaison_1 : list liaison_raw :=
  [ {| liaison_product_id := Parsed 1%Z; liaison_id_web := Parsed 1%Z |} ].

(** The product row of [sku] 1 and an attachment row of the same [sku]. *)
Definition web_attachment : list web_raw :=
  [ {| web_sku := Parsed 1%Z; web_post_type := Some "product"%string;
       web_total_sales := Parsed 4 |};
    {| web_sku := Parsed 1%Z; web_post_type := Some "attachment"%string;
       web_total_sales := Parsed 7 |} ].

Definition coherent_of (p : R) : coherent_row :=
  {| product_id := Some 1%Z; price := Some p; stock_quantity := Parsed 5%Z;
     stock_status := Some "instock"%string; id_web := Some 1%Z;
     total_sales := Some 0 |}.

(** The product row of [sku] 1, with a [total_sales] cell that is text. *)
Definition web_text_sales : list web_raw :=
  [ {| web_sku := Parsed 1%Z; web_post_type := Some "product"%string;
       web_total_sales := Unparsed "inconnu" |} ].

(** Two reconciled rows priced 0 and 2. *)
Definition df_0_2 : list coherent_row := [coherent_of 0; coherent_of 2].

(** Nine rows priced 10 and one priced 0. *)
Definition prices_10 : list R := [10; 10; 10; 10; 10; 10; 10; 10; 10; 0].
Definition df_10 : list coherent_row := map coherent_of prices_10.

(** No row of the web frame has the web identity of [r] (a null identity
    matching a null [sku]). *)
Definition lacks_web_match (df_web : list web_raw) (r : coherent_row) : Prop :=
  forall w, In w df_web -> zkey_eqb (id_web r) (to_numeric (web_sku w)) = false.

(** The z-score the specification words: deviation from the mean over the
    sample standard deviation (divisor N - 1). *)
Definition sample_z_score (xs : list R) (x : R) : R :=
  (x - avg xs) / sqrt (sqdev xs / (INR (length xs) - 1)).

End VinsSamples.

(** * Properties *)

(** ** Facts on nullable numbers and column statistics *)

Module NumFacts.

Lemma Reqb_true x y : Reqb x y = true <-> x = y.
Proof. unfold Reqb; destruct (Req_dec_T x y); split; congruence. Qed.

Lemma Reqb_false x y : Reqb x y = false <-> x <> y.
Proof. unfold Reqb; destruct (Req_dec_T x y); split; congruence. Qed.

Lemma Rltb_true x y : Rltb x y = true <-> x < y.
Proof. unfold Rltb; destruct (Rlt_dec x y); split; intros; congruence || tauto. Qed.

Lemma Rltb_false x y : Rltb x y = false <-> ~ x < y.
Proof. unfold Rltb; destruct (Rlt_dec x y); split; intros; congruence || tauto. Qed.

Lemma Rleb_true x y : Rleb x y = true <-> x <= y.
Proof. unfold Rleb; destruct (Rle_dec x y); split; intros; congruence || tauto. Qed.

Lemma Rleb_false x y : Rleb x y = false <-> ~ x <= y.
Proof. unfold Rleb; destruct (Rle_dec x y); split; intros; congruence || tauto. Qed.

Lemma n_gt_true a t : n_gt a t = true <-> exists z, a = Some z /\ t < z.
Proof.
  destruct a as [x|]; simpl.
  - rewrite Rltb_true. split.
    + intros H; exists x; auto.
    + intros (z & E & H); congruence.
  - split; [discriminate | intros (z & E & _); discriminate].
Qed.

Lemma n_le_true a t : n_le a t = true <-> exists z, a = Some z /\ z <= t.
Proof.
  destruct a as [x|]; simpl.
  - rewrite Rleb_true. split.
    + intros H; exists x; auto.
    + intros (z & E & H); congruence.
  - split; [discriminate | intros (z & E & _); discriminate].
Qed.

Lemma np_divide_nonzero x y : y <> 0 -> np_divide x y = Some (x / y).
Proof.
  intros H. unfold np_divide.
  destruct (Reqb y 0) eqn:E; [apply Reqb_true in E; contradiction | reflexivity].
Qed.

Lemma np_divide_zero x : np_divide x 0 = None.
Proof.
  unfold np_divide.
  destruct (Reqb 0 0) eqn:E; [reflexivity | apply Reqb_false in E; contradiction].
Qed.

End NumFacts.
Import NumFacts.

Module StatsFacts.

Lemma dropna_Some xs : dropna (map Some xs) = xs.
Proof. induction xs as [|x xs IH]; simpl; congruence. Qed.

Lemma hasnans_Some xs : hasnans (map Some xs) = false.
Proof. induction xs as [|x xs IH]; simpl; auto. Qed.

Lemma length_zscore l : length (zscore l) = length l.
Proof.
  unfold zscore. destruct (hasnans l) eqn:E.
  - now rewrite length_map.
  - rewrite length_map. clear -E.
    induction l as [|[x|] l IH]; simpl in *; auto; discriminate.
Qed.

(** Without NaN, the score of each price is its deviation from the average
    divided by the population standard deviation. *)
Lemma zscore_Some xs :
  zscore (map Some xs)
  = map (fun x => np_divide (x - avg xs) (pop_std xs)) xs.
Proof. unfold zscore. now rewrite hasnans_Some, dropna_Some. Qed.

Lemma sum_const c xs :
  Forall (fun x => x = c) xs -> sum xs = c * INR (length xs).
Proof.
  induction 1 as [|x xs Hx _ IH].
  - simpl. lra.
  - change (sum (x :: xs)) with (x + sum xs).
    change (length (x :: xs)) with (S (length xs)).
    rewrite S_INR, IH, Hx. lra.
Qed.

Lemma INR_length_pos {A} (xs : list A) : xs <> [] -> 0 < INR (length xs).
Proof.
  destruct xs; [congruence | intros _].
  apply lt_0_INR. simpl. lia.
Qed.

Lemma avg_const c xs :
  xs <> [] -> Forall (fun x => x = c) xs -> avg xs = c.
Proof.
  intros Hne Hc. unfold avg. rewrite (sum_const c) by assumption.
  pose proof (INR_length_pos xs Hne). field. lra.
Qed.

Lemma sum_map_zero {A} (f : A -> R) xs :
  Forall (fun x => f x = 0) xs -> sum (map f xs) = 0.
Proof.
  induction 1 as [|x xs Hx _ IH]; simpl; [reflexivity|].
  rewrite Hx, IH. lra.
Qed.

Lemma sqdev_const c xs :
  xs <> [] -> Forall (fun x => x = c) xs -> sqdev xs = 0.
Proof.
  intros Hne Hc. unfold sqdev. apply sum_map_zero.
  rewrite (avg_const c) by assumption.
  eapply Forall_impl; [|exact Hc]. simpl. intros a ->. lra.
Qed.

Lemma sum_map_nonneg {A} (f : A -> R) xs :
  (forall x, 0 <= f x) -> 0 <= sum (map f xs).
Proof.
  intros Hf. induction xs as [|x xs IH]; simpl; [lra|].
  specialize (Hf x). lra.
Qed.

Lemma sum_map_pos {A} (f : A -> R) xs a :
  (forall x, 0 <= f x) -> In a xs -> 0 < f a -> 0 < sum (map f xs).
Proof.
  intros Hf Hin Ha. induction xs as [|x xs IH]; simpl in *; [tauto|].
  destruct Hin as [->|Hin].
  - pose proof (sum_map_nonneg f xs Hf). lra.
  - specialize (IH Hin). specialize (Hf x). lra.
Qed.

Lemma sqdev_nonneg xs : 0 <= sqdev xs.
Proof. unfold sqdev. apply sum_map_nonneg. intros x. apply Rle_0_sqr. Qed.

(** Two different prices leave a positive sum of squared deviations. *)
Lemma sqdev_pos xs a b : In a xs -> In b xs -> a <> b -> 0 < sqdev xs.
Proof.
  intros Ha Hb Hab. unfold sqdev.
  destruct (Req_dec_T a (avg xs)) as [Ea|Na].
  - apply sum_map_pos with (a := b); auto; [intros; apply Rle_0_sqr|].
    assert (b - avg xs <> 0) by lra. nra.
  - apply sum_map_pos with (a := a); auto; [intros; apply Rle_0_sqr|].
    assert (a - avg xs <> 0) by lra. nra.
Qed.

Lemma two_values_length (xs : list R) a b :
  In a xs -> In b xs -> a <> b -> (2 <= length xs)%nat.
Proof.
  destruct xs as [|x [|y xs]]; simpl; try tauto; try lia.
  intros [->|[]] [->|[]]. congruence.
Qed.

(** The divisor of [zscore] vanishes only when every deviation does. *)
Lemma pop_std_zero xs :
  pop_std xs = 0 -> Forall (fun x => x - avg xs = 0) xs.
Proof.
  intros H. unfold pop_std in H.
  destruct xs as [|x0 xs0]; [constructor|].
  set (xs := x0 :: xs0) in *.
  assert (Hn : 0 < INR (length xs)) by (apply INR_length_pos; discriminate).
  assert (Hq : 0 <= sqdev xs / INR (length xs)).
  { apply Rmult_le_pos; [apply sqdev_nonneg|].
    left. now apply Rinv_0_lt_compat. }
  apply sqrt_eq_0 in H; [|exact Hq].
  assert (Hs : sqdev xs = 0).
  { unfold Rdiv in H. apply Rmult_integral in H. destruct H as [H|H]; [exact H|].
    pose proof (Rinv_0_lt_compat _ Hn). lra. }
  apply Forall_forall. intros a Ha.
  destruct (Req_dec_T (a - avg xs) 0) as [E|N]; [exact E|exfalso].
  assert (0 < sqdev xs); [|lra].
  unfold sqdev. apply sum_map_pos with (a := a); auto; [intros; apply Rle_0_sqr|nra].
Qed.

End StatsFacts.
Import StatsFacts.

(** ** Facts on joins, filters and duplicate removal *)

Module FrameFacts.

Section MergeFacts.
Context {Lt Rt K : Type}.
Variable key_eqb : K -> K -> bool.
Variable left_on : Lt -> K.
Variable right_on : Rt -> K.

Lemma In_matches l r rs :
  In r (matches key_eqb left_on right_on l rs)
  <-> In r rs /\ key_eqb (left_on l) (right_on r) = true.
Proof. unfold matches. apply filter_In. Qed.

Lemma In_merge_inner l r ls rs :
  In (l, r) (merge_inner key_eqb left_on right_on ls rs)
  <-> In l ls /\ In r rs /\ key_eqb (left_on l) (right_on r) = true.
Proof.
  unfold merge_inner. rewrite in_flat_map. split.
  - intros (l' & Hl & Hin). apply in_map_iff in Hin.
    destruct Hin as (r' & E & Hr). inversion E; subst.
    apply In_matches in Hr. tauto.
  - intros (Hl & Hr & Hk). exists l. split; [exact Hl|].
    apply in_map. apply In_matches. tauto.
Qed.

(** A row of a left join either carries a matching right row, or nulls
    because no right row matches. *)
Lemma In_merge_left l o ls rs :
  In (l, o) (merge_left key_eqb left_on right_on ls rs) ->
  In l ls /\
  match o with
  | Some r => In r rs /\ key_eqb (left_on l) (right_on r) = true
  | None => matches key_eqb left_on right_on l rs = []
  end.
Proof.
  unfold merge_left. rewrite in_flat_map.
  intros (l' & Hl & Hin).
  destruct (matches key_eqb left_on right_on l' rs) as [|m ms] eqn:E.
  - destruct Hin as [Hin|[]]. inversion Hin; subst. auto.
  - apply in_map_iff in Hin. destruct Hin as (r' & Er & Hr).
    inversion Er; subst. split; [exact Hl|].
    apply In_matches. now rewrite E.
Qed.
End MergeFacts.

Lemma filter_idem {A} (f : A -> bool) l : filter f (filter f l) = filter f l.
Proof.
  induction l as [|a l IH]; simpl; [reflexivity|].
  destruct (f a) eqn:E; simpl; [rewrite E|]; congruence.
Qed.

Lemma filter_all {A} (f : A -> bool) l :
  Forall (fun a => f a = true) l -> filter f l = l.
Proof.
  induction 1 as [|a l Ha _ IH]; simpl; [reflexivity|].
  rewrite Ha. congruence.
Qed.

(** After [drop_duplicates], [duplicated] marks no row. *)
Lemma duplicated_drop_duplicates_from {A T} (eqb : A -> A -> bool)
      (key : T -> A) rows :
  forall seen,
    count_true
      (duplicated_from eqb seen
         (map key (drop_duplicates_from eqb key seen rows))) = 0%nat.
Proof.
  induction rows as [|r rs IH]; intros seen; simpl; [reflexivity|].
  destruct (isin eqb seen (key r)) eqn:E; simpl.
  - apply IH.
  - unfold count_true in *. simpl. rewrite E. apply IH.
Qed.

Lemma drop_duplicates_none {A T} (eqb : A -> A -> bool) (key : T -> A) rows :
  forall seen,
    count_true (duplicated_from eqb seen (map key rows)) = 0%nat ->
    drop_duplicates_from eqb key seen rows = rows.
Proof.
  induction rows as [|r rs IH]; intros seen; simpl; [reflexivity|].
  unfold count_true. simpl.
  destruct (isin eqb seen (key r)) eqn:E; simpl; [discriminate|].
  intros H. f_equal. apply IH. exact H.
Qed.

End FrameFacts.
Import FrameFacts.

(** ** The audited pipeline: join, quality gate, remediation *)

Module FixProps.
Import EtlVinsFix FixSamples.

(** *** Join *)

(** Every row of [df_final] was joined with a web row of type "product". *)
Lemma transform_and_join_products df_web df_erp df_liaison :
  Forall (fun r => post_type (f_web r) = Some "product"%string)
         (fst (fst (fst (transform_and_join df_web df_erp df_liaison)))).
Proof.
  apply Forall_forall. intros [[e l] w] Hin. simpl in Hin.
  apply In_merge_inner in Hin. destruct Hin as (_ & Hw & _).
  unfold web_products in Hw. apply filter_In in Hw. destruct Hw as [_ Hp].
  unfold f_web, is_product in *. simpl.
  destruct (post_type w) as [t|]; [|discriminate].
  apply String.eqb_eq in Hp. now subst.
Qed.

(** Every row of [df_final] carries a web identity found in the cleaned
    linkage. *)
Lemma transform_and_join_linked df_web df_erp df_liaison :
  Forall (fun r =>
            isin skey_eqb (map id_web (liaison_clean df_liaison))
                 (sku (f_web r)) = true)
         (fst (fst (fst (transform_and_join df_web df_erp df_liaison)))).
Proof.
  apply Forall_forall. intros [[e l] w] Hin. simpl in Hin.
  apply In_merge_inner in Hin. destruct Hin as (Hm & _ & Hk).
  apply In_merge_inner in Hm. destruct Hm as (_ & Hl & _).
  unfold f_web. simpl in *. unfold isin. apply existsb_exists.
  exists (id_web l). split; [now apply in_map|].
  unfold skey_eqb, okey_eqb in *.
  destruct (id_web l) as [a|], (sku w) as [b|]; try discriminate; auto.
  now rewrite String.eqb_sym.
Qed.

(** *** Quality gate *)

(** What the aggregate-total check decides: the default relative tolerance
    of [np.isclose] is added to the absolute one. *)
Lemma status_ca_iff df_final :
  status_ca (run_data_quality_checks df_final) = SUCCES
  <-> Rabs (calculated_ca (run_data_quality_checks df_final) - EXPECTED_CA)
      <= 1 / 100 + 1 / 100000 * Rabs EXPECTED_CA.
Proof.
  unfold run_data_quality_checks, isclose, rtol_default, status_of. simpl.
  rewrite <- Rleb_true.
  destruct (Rleb _ _); split; intros; congruence.
Qed.

Lemma isclose_70568_61 : isclose (7056861 / 100) EXPECTED_CA (1 / 100) = true.
Proof.
  unfold isclose, rtol_default, EXPECTED_CA. apply Rleb_true.
  rewrite (Rabs_right (7056860 / 100)) by lra.
  rewrite Rabs_right by lra. lra.
Qed.

Lemma isclose_70600 : isclose 70600 EXPECTED_CA (1 / 100) = false.
Proof.
  unfold isclose, rtol_default, EXPECTED_CA. apply Rleb_false.
  rewrite (Rabs_right (7056860 / 100)) by lra.
  rewrite Rabs_right by lra. lra.
Qed.

(** A failed gate ends the run after the third stage: no audit, no
    remediation, no migratable frame. *)
Lemma etl_pipeline_halts web erp liaison :
  dq_passed (report (etl_pipeline web erp liaison)) = false ->
  stages (etl_pipeline web erp liaison) = [Chargement; Jointure; ControleQualite]
  /\ df_migratable (etl_pipeline web erp liaison) = None.
Proof.
  unfold etl_pipeline, load_and_clean_data, transform_and_join,
    run_advanced_dq_checks.
  cbv beta iota zeta.
  match goal with
  | |- context [negb (dq_passed ?x)] => destruct (dq_passed x) eqn:E
  end; cbn [negb report stages df_migratable].
  - rewrite E. discriminate.
  - auto.
Qed.

Lemma etl_pipeline_proceeds web erp liaison :
  dq_passed (report (etl_pipeline web erp liaison)) = true ->
  stages (etl_pipeline web erp liaison)
  = [Chargement; Jointure; ControleQualite; TestsIntegrite;
     GestionAnomalies; PreparationMigration]
  /\ df_migratable (etl_pipeline web erp liaison) <> None.
Proof.
  unfold etl_pipeline, load_and_clean_data, transform_and_join,
    run_advanced_dq_checks.
  cbv beta iota zeta.
  match goal with
  | |- context [negb (dq_passed ?x)] => destruct (dq_passed x) eqn:E
  end; cbn [negb report stages df_migratable].
  - split; [reflexivity | discriminate].
  - rewrite E. discriminate.
Qed.

(** C2, at a reconciled frame summing to 70569.00: the aggregate-total check
    of [run_data_quality_checks] reports success although the sum is 0.40
    away from the expected 70568.60, forty times the absolute tolerance of
    0.01. *)
Theorem ca_check_accepts_forty_cents_off :
  calculated_ca (run_data_quality_checks df_final_70569) = 70569
  /\ status_ca (run_data_quality_checks df_final_70569) = SUCCES
  /\ Rabs (70569 - EXPECTED_CA) > 1 / 100.
Proof.
  assert (Hca : calculated_ca (run_data_quality_checks df_final_70569) = 70569).
  { unfold run_data_quality_checks, df_final_70569, pd_sum, Stats.sum. simpl. lra. }
  split; [exact Hca|]. split.
  - apply status_ca_iff. rewrite Hca. unfold EXPECTED_CA.
    rewrite (Rabs_right (7056860 / 100)) by lra.
    rewrite Rabs_right by lra. lra.
  - unfold EXPECTED_CA. rewrite Rabs_right by lra. lra.
Qed.

(** *** Remediation *)

Lemma handle_anomalies_filter df w n o :
  handle_anomalies df w n o
  = filter (fun r => negb (isin skey_eqb (critical_unlinked_skus o) (f_sku r))) df.
Proof.
  unfold handle_anomalies. cbv zeta.
  destruct (critical_unlinked_skus o) as [|k ks] eqn:E; simpl; [|reflexivity].
  symmetry. apply filter_all. apply Forall_forall. auto.
Qed.

(** No row of the migratable frame carries a web identity of the orphan
    list. *)
Lemma handle_anomalies_no_orphan df w n o :
  Forall (fun r => isin skey_eqb (critical_unlinked_skus o) (f_sku r) = false)
         (handle_anomalies df w n o).
Proof.
  rewrite handle_anomalies_filter. apply Forall_forall. intros r Hr.
  apply filter_In in Hr. destruct Hr as [_ Hr].
  now apply negb_true_iff in Hr.
Qed.

(** C4, at a web frame with two product rows of the same [sku] "7", one ERP
    product and its link: the audit counts one duplicate and no orphan, and
    the frame [handle_anomalies] returns still holds both rows of [sku]
    "7". *)
Theorem handle_anomalies_keeps_duplicate_sku :
  let '(df_web, df_erp, df_liaison) :=
    load_and_clean_data web_dup erp_one liaison_one in
  let '(df_final, df_web_products, df_erp_cleaned, df_liaison_cleaned) :=
    transform_and_join df_web df_erp df_liaison in
  let df := df_checked (run_data_quality_checks df_final) in
  let '(web_duplicates_count, web_without_erp_df) :=
    run_advanced_dq_checks df df_web_products df_erp_cleaned
                           df_liaison_cleaned in
  web_duplicates_count = 1%nat
  /\ web_without_erp_df = []
  /\ map f_sku (handle_anomalies df df_web_products web_duplicates_count
                                 web_without_erp_df)
     = [Some "7"%string; Some "7"%string]
  /\ map (fun r => post_title (f_web (row r)))
         (handle_anomalies df df_web_products web_duplicates_count
                           web_without_erp_df)
     = [Some "Cuvee A"%string; Some "Cuvee B"%string].
Proof. repeat split; reflexivity. Qed.

(** The frame [handle_anomalies] returns is a fixed point: given the same
    web frame, count and orphan frame again, it is returned unchanged and no
    further row is excluded. *)
Lemma handle_anomalies_fixed_point df w n o :
  handle_anomalies (handle_anomalies df w n o) w n o = handle_anomalies df w n o
  /\ correction2_dropped (handle_anomalies df w n o) w n o = 0%nat.
Proof.
  assert (Hidem : handle_anomalies (handle_anomalies df w n o) w n o
                  = handle_anomalies df w n o).
  { rewrite !handle_anomalies_filter. apply filter_idem. }
  split; [exact Hidem|].
  unfold correction2_dropped. rewrite Hidem. lia.
Qed.

(** C5, at the frames of C4 (two product rows of [sku] "7", one ERP product
    and its link): a second pass of [handle_anomalies] over its own output
    returns the same two rows, and finds the duplicate again.  The web frame
    it is given still counts one duplicate [sku], Correction 1 removes one
    row from it once more, and the frame returned still holds the [sku] "7"
    twice. *)
Theorem second_pass_finds_duplicate_again :
  let '(df_web, df_erp, df_liaison) :=
    load_and_clean_data web_dup erp_one liaison_one in
  let '(df_final, df_web_products, df_erp_cleaned, df_liaison_cleaned) :=
    transform_and_join df_web df_erp df_liaison in
  let df := df_checked (run_data_quality_checks df_final) in
  let '(web_duplicates_count, web_without_erp_df) :=
    run_advanced_dq_checks df df_web_products df_erp_cleaned
                           df_liaison_cleaned in
  let first_pass :=
    handle_anomalies df df_web_products web_duplicates_count
                     web_without_erp_df in
  let '(web_duplicates_again, web_without_erp_again) :=
    run_advanced_dq_checks first_pass df_web_products df_erp_cleaned
                           df_liaison_cleaned in
  let second_pass :=
    handle_anomalies first_pass df_web_products web_duplicates_again
                     web_without_erp_again in
  second_pass = first_pass
  /\ map f_sku first_pass = [Some "7"%string; Some "7"%string]
  /\ web_duplicates_again = 1%nat
  /\ (length df_web_products
      - length (df_web_products_cleaned df_web_products web_duplicates_again)
      = 1)%nat
  /\ count_true (duplicated skey_eqb (map f_sku second_pass)) = 1%nat.
Proof. repeat split; reflexivity. Qed.


End FixProps.

(** ** The reporting pipeline: join, revenue, z-score, exports *)

Module VinsProps.
Import EtlVins EtlVins2 VinsSamples.

(** *** Structure of the two stages *)

Lemma charger_priced df_erp df_web df_liaison :
  Forall (fun r => exists p, price r = Some p)
         (charger_et_joindre_donnees df_erp df_web df_liaison).
Proof.
  apply Forall_forall. intros r Hr. unfold charger_et_joindre_donnees in Hr.
  apply filter_In in Hr. destruct Hr as [_ Hr].
  destruct (price r) as [p|]; [eauto | discriminate].
Qed.

Lemma length_z_score_prix df : length (z_score_prix df) = length df.
Proof.
  unfold z_score_prix. destruct (n_eq _ 0).
  - apply length_map.
  - rewrite length_zscore. apply length_map.
Qed.

Lemma In_transformer r df :
  In r (transformer_et_enrichir_donnees df) ->
  exists c z, In c df /\ r = enrichir (c, z).
Proof.
  unfold transformer_et_enrichir_donnees. intros H.
  apply in_map_iff in H. destruct H as ([c z] & <- & Hin).
  apply in_combine_l in Hin. eauto.
Qed.

Lemma map_fst_combine {A B} (l : list A) (l' : list B) :
  length l = length l' -> map fst (combine l l') = l.
Proof.
  revert l'. induction l as [|a l IH]; intros [|b l'] H; simpl in *;
    try discriminate; [reflexivity|].
  f_equal. apply IH. lia.
Qed.

Lemma map_snd_combine {A B} (l : list A) (l' : list B) :
  length l = length l' -> map snd (combine l l') = l'.
Proof.
  revert l'. induction l as [|a l IH]; intros [|b l'] H; simpl in *;
    try discriminate; [reflexivity|].
  f_equal. apply IH. lia.
Qed.

(** The enriched frame has the rows of the coherent frame, in order, and
    its z-score column is [z_score_prix]. *)
Lemma base_transformer df :
  map base (transformer_et_enrichir_donnees df) = df.
Proof.
  unfold transformer_et_enrichir_donnees. rewrite map_map. simpl.
  apply map_fst_combine. symmetry. apply length_z_score_prix.
Qed.

Lemma Z_Score_transformer df :
  map Z_Score_Prix (transformer_et_enrichir_donnees df) = z_score_prix df.
Proof.
  unfold transformer_et_enrichir_donnees. rewrite map_map. simpl.
  apply map_snd_combine. symmetry. apply length_z_score_prix.
Qed.

(** *** Revenue *)

Lemma charger_unmatched_sales df_erp df_web df_liaison r :
  In r (charger_et_joindre_donnees df_erp df_web df_liaison) ->
  lacks_web_match df_web r -> total_sales r = Some 0.
Proof.
  intros Hr Hlack. unfold charger_et_joindre_donnees in Hr.
  apply filter_In in Hr. destruct Hr as [Hr _].
  apply in_map_iff in Hr. destruct Hr as ([m o] & <- & Hj).
  unfold df_joined in Hj. apply In_merge_left in Hj.
  destruct Hj as [_ Hj]. destruct o as [ws|]; [|reflexivity].
  exfalso. destruct Hj as [Hws Hk].
  unfold df_web_sales in Hws. apply in_map_iff in Hws.
  destruct Hws as (w & <- & Hw).
  specialize (Hlack w Hw). simpl in *. congruence.
Qed.

Lemma CA_transformer df :
map CA_produit (transformer_et_enrichir_donnees df)
= map (fun c => nmul (price c) (total_sales c)) df.
Proof.
rewrite <- (base_transformer df) at 2. rewrite map_map.
unfold transformer_et_enrichir_donnees. rewrite !map_map. reflexivity.
Qed.

(** Scenario A of the specification: product 1 (price 10.00) is linked to the
web row of [sku] 1 with 4 sales, product 2 (price 10,50) has no link.  The
reconciled frame has one row each; product 2 carries a null web identity,
0 sales and a revenue of 0. *)
Example scenario_A :
let df :=
  run [erp_of 1 (Parsed 10); erp_of 2 (Parsed (21 / 2))]
      [ {| web_sku := Parsed 1%Z; web_post_type := Some "product"%string;
           web_total_sales := Parsed 4 |} ]
      liaison_1 in
map (fun r => (product_id (base r), id_web (base r), price (base r),
               total_sales (base r))) df
= [ (Some 1%Z, Some 1%Z, Some 10, Some 4);
    (Some 2%Z, None, Some (21 / 2), Some 0) ]
/\ map CA_produit df = [Some 40; Some 0].
Proof.
cbv zeta. unfold run. split.
- match goal with
  | |- map _ ?l = _ =>
      transitivity
        (map (fun c => (product_id c, id_web c, price c, total_sales c))
             (map base l)); [now rewrite map_map|]
  end.
  rewrite base_transformer. reflexivity.
- rewrite CA_transformer. simpl. repeat f_equal; lra.
Qed.


(** Where price and sales are numbers, column [CA_produit] is their product,
    and a row without a web match has [total_sales = 0]; in the audited
    pipeline column [CA] is the product as well. *)
Lemma revenue_is_price_times_sales df_erp df_web df_liaison :
  Forall
    (fun r =>
       CA_produit r = nmul (price (base r)) (total_sales (base r))
       /\ (forall p t,
              price (base r) = Some p -> total_sales (base r) = Some t ->
              exists ca, CA_produit r = Some ca
                         /\ Rabs (ca - p * t) <= 1 / 1000000000)
       /\ (lacks_web_match df_web (base r) ->
           total_sales (base r) = Some 0 /\ CA_produit r = Some 0))
    (run df_erp df_web df_liaison)
  /\ forall df_final,
    Forall
      (fun r =>
         EtlVinsFix.CA r
         = nmul (EtlVinsFix.price (EtlVinsFix.f_erp (EtlVinsFix.row r)))
                (Some (EtlVinsFix.total_sales
                         (EtlVinsFix.f_web (EtlVinsFix.row r))))
         /\ forall p,
             EtlVinsFix.price (EtlVinsFix.f_erp (EtlVinsFix.row r)) = Some p ->
             exists ca,
               EtlVinsFix.CA r = Some ca
               /\ Rabs (ca - p * EtlVinsFix.total_sales
                                  (EtlVinsFix.f_web (EtlVinsFix.row r)))
                  <= 1 / 1000000000)
      (EtlVinsFix.df_checked (EtlVinsFix.run_data_quality_checks df_final)).
Proof.
  split.
  - apply Forall_forall. intros r Hr. unfold run in Hr.
    apply In_transformer in Hr. destruct Hr as (c & z & Hc & ->). simpl.
    split; [reflexivity|]. split.
    + intros p t Hp Ht. rewrite Hp, Ht. simpl. eexists. split; [reflexivity|].
      replace (p * t - p * t) with 0 by lra. rewrite Rabs_R0. lra.
    + intros Hlack.
      pose proof (charger_unmatched_sales _ _ _ _ Hc Hlack) as Hts.
      split; [exact Hts|]. rewrite Hts.
      pose proof (charger_priced df_erp df_web df_liaison) as Hp.
      rewrite Forall_forall in Hp. destruct (Hp c Hc) as (p & ->).
      simpl. f_equal. lra.
  - intros df_final. apply Forall_forall. intros r Hr. simpl in Hr.
    apply in_map_iff in Hr. destruct Hr as (f & <- & _). simpl.
    split; [reflexivity|]. intros p ->. simpl. eexists. split; [reflexivity|].
    match goal with |- Rabs ?e <= _ => replace e with 0 by lra end.
    rewrite Rabs_R0. lra.
Qed.

(** C1, at one product priced 10, linked to the web row of [sku] 1 whose
    [total_sales] cell is the text "inconnu": the reconciled row has a web
    match, [fillna(0)] runs before [to_numeric] and leaves the cell NaN, so
    [total_sales] and the revenue [CA_produit] are NaN, within 1e-9 of no
    number.  The audited pipeline coerces first and fills afterwards: the
    same cell is cleaned to 0 there. *)
Theorem unparsed_sales_give_nan_revenue :
  map (fun c => (product_id c, id_web c, price c, total_sales c))
      (charger_et_joindre_donnees erp_10 web_text_sales liaison_1)
  = [ (Some 1%Z, Some 1%Z, Some 10, None) ]
  /\ map CA_produit (run erp_10 web_text_sales liaison_1) = [None]
  /\ EtlVinsFix.total_sales
       (EtlVinsFix.clean_web
          {| EtlVinsFix.raw_sku := Some "1"%string;
             EtlVinsFix.raw_post_type := Some "product"%string;
             EtlVinsFix.raw_post_title := None;
             EtlVinsFix.raw_total_sales := Unparsed "inconnu" |}) = 0.
Proof.
split; [reflexivity|]. split; [|reflexivity].
unfold run. rewrite CA_transformer. reflexivity.
Qed.

(** *** Scope of the web frame *)

(** C3, at one product linked to [sku] 1 and a web frame holding a product
    row and an attachment row of [sku] 1: [charger_et_joindre_donnees] joins
    the whole web frame, so the reconciled frame has a second row for the
    product, carrying the 7 sales of the attachment row. *)
Theorem charger_joins_attachment_row :
  map (fun r => (product_id r, id_web r, price r, total_sales r))
      (charger_et_joindre_donnees erp_10 web_attachment liaison_1)
  = [ (Some 1%Z, Some 1%Z, Some 10, Some 4);
      (Some 1%Z, Some 1%Z, Some 10, Some 7) ].
Proof. reflexivity. Qed.

(** *** Rows without a price *)

(** C6 fails: the only ERP row has a price that is not a number; it is in
    the joined frame with a null price, and the reconciled frame is
    empty. *)
Lemma null_price_row_is_dropped :
  (exists j, In j (df_joined erp_bad_price [] []) /\ price (nettoyer j) = None)
  /\ run erp_bad_price [] [] = [].
Proof.
  split; [|reflexivity].
  eexists. split; [left; reflexivity | reflexivity].
Qed.

(** C6, amended: a joined row is in the reconciled frame exactly when its
    cleaned price is a number; every reconciled row has a price, the
    enriched frame has the same rows, and the z-score population is the
    price of every one of them. *)
Theorem null_price_rows_are_dropped df_erp df_web df_liaison :
  (forall r,
      In r (charger_et_joindre_donnees df_erp df_web df_liaison)
      <-> (exists j, In j (df_joined df_erp df_liaison df_web) /\ nettoyer j = r)
          /\ price r <> None)
  /\ Forall (fun r => exists p, price (base r) = Some p)
            (run df_erp df_web df_liaison)
  /\ map base (run df_erp df_web df_liaison)
     = charger_et_joindre_donnees df_erp df_web df_liaison
  /\ length (dropna (map price
               (charger_et_joindre_donnees df_erp df_web df_liaison)))
     = length (run df_erp df_web df_liaison).
Proof.
  pose proof (charger_priced df_erp df_web df_liaison) as Hp.
  assert (Hb : map base (run df_erp df_web df_liaison)
               = charger_et_joindre_donnees df_erp df_web df_liaison)
    by apply base_transformer.
  split; [|split; [|split]].
  - intros r. unfold charger_et_joindre_donnees.
    rewrite filter_In, in_map_iff.
    assert (Hsw : (exists x, nettoyer x = r
                             /\ In x (df_joined df_erp df_liaison df_web))
                  <-> (exists j, In j (df_joined df_erp df_liaison df_web)
                                 /\ nettoyer j = r)).
    { split; intros (j & H1 & H2); exists j; auto. }
    rewrite Hsw.
    destruct (price r); simpl; split; intros [H1 H2]; split;
      auto; try discriminate; try (exfalso; auto; fail).
  - rewrite <- Hb in Hp. rewrite Forall_map in Hp. exact Hp.
  - exact Hb.
  - rewrite <- (length_map base (run df_erp df_web df_liaison)), Hb.
    clear Hb. induction Hp as [|r l (p & E) _ IH]; simpl; [reflexivity|].
    rewrite E. simpl. f_equal. exact IH.
Qed.


(** *** The z-score column *)

Lemma INR_two_le n : (2 <= n)%nat -> 2 <= INR n.
Proof. intros H. apply le_INR in H. simpl in H. lra. Qed.

Lemma pd_std_Some xs :
  (2 <= length xs)%nat ->
  pd_std (map Some xs) = Some (sqrt (sqdev xs / (INR (length xs) - 1))).
Proof.
  intros H. unfold pd_std. rewrite dropna_Some. cbv zeta.
  destruct (length xs <=? 1)%nat eqn:E; [|reflexivity].
  apply Nat.leb_le in E. lia.
Qed.

Lemma pd_std_short xs :
  (length xs <= 1)%nat -> pd_std (map Some xs) = None.
Proof.
  intros H. unfold pd_std. rewrite dropna_Some. cbv zeta.
  destruct (length xs <=? 1)%nat eqn:E; [reflexivity|].
  apply Nat.leb_gt in E. lia.
Qed.

Lemma sqrt_quotient_pos s d : 0 < s -> 0 < d -> 0 < sqrt (s / d).
Proof.
  intros Hs Hd. apply sqrt_lt_R0. apply Rmult_lt_0_compat; [exact Hs|].
  now apply Rinv_0_lt_compat.
Qed.

Lemma sqrt_quotient_zero d : sqrt (0 / d) = 0.
Proof. unfold Rdiv. rewrite Rmult_0_l. apply sqrt_0. Qed.

Lemma pop_std_pos xs : xs <> [] -> 0 < sqdev xs -> 0 < pop_std xs.
Proof.
  intros Hne Hs. unfold pop_std. apply sqrt_quotient_pos; [exact Hs|].
  now apply INR_length_pos.
Qed.

(** With a positive sum of squared deviations, [std_price] is not zero and
    the column is the scipy z-score: deviation from the average over the
    population standard deviation. *)
Lemma z_score_prix_spread df xs :
  map price df = map Some xs -> (2 <= length xs)%nat -> 0 < sqdev xs ->
  z_score_prix df = map (fun x => Some ((x - avg xs) / pop_std xs)) xs.
Proof.
  intros Hp Hlen Hs. unfold z_score_prix. rewrite Hp, pd_std_Some by exact Hlen.
  assert (Hne : xs <> []) by (destruct xs; [simpl in Hlen; lia | discriminate]).
  assert (Hsd : 0 < sqrt (sqdev xs / (INR (length xs) - 1))).
  { apply sqrt_quotient_pos; [exact Hs|]. apply INR_two_le in Hlen. lra. }
  simpl. destruct (Reqb _ 0) eqn:E; [apply Reqb_true in E; lra|].
  rewrite zscore_Some. apply map_ext. intros x.
  apply np_divide_nonzero. pose proof (pop_std_pos xs Hne Hs). lra.
Qed.

(** With at least two prices, all equal, [std_price == 0] holds and the
    column is the constant 0. *)
Lemma z_score_prix_const df xs c :
  map price df = map Some xs -> (2 <= length xs)%nat ->
  Forall (fun x => x = c) xs ->
  z_score_prix df = map (fun _ => Some 0) df.
Proof.
  intros Hp Hlen Hc. unfold z_score_prix. rewrite Hp, pd_std_Some by exact Hlen.
  assert (Hne : xs <> []) by (destruct xs; [simpl in Hlen; lia | discriminate]).
  rewrite (sqdev_const c) by assumption. rewrite sqrt_quotient_zero.
  simpl. destruct (Reqb 0 0) eqn:E; [reflexivity|].
  apply Reqb_false in E. contradiction.
Qed.

(** With a single price, [std_price] is NaN, the test [std_price == 0]
    fails, and [zscore] divides 0 by 0. *)
Lemma z_score_prix_single df p :
  map price df = [Some p] -> z_score_prix df = [None].
Proof.
  intros Hp. unfold z_score_prix. rewrite Hp.
  change [Some p] with (map Some [p]).
  rewrite pd_std_short by (simpl; lia). simpl n_eq. cbv iota.
  rewrite zscore_Some. simpl. f_equal.
  assert (H0 : pop_std [p] = 0).
  { unfold pop_std. rewrite (sqdev_const p); [apply sqrt_quotient_zero
                                             | discriminate | repeat constructor]. }
  rewrite H0. apply np_divide_zero.
Qed.

(** With at least two prices, every z-score is a number. *)
Lemma z_score_prix_defined df xs :
  map price df = map Some xs -> (2 <= length xs)%nat ->
  Forall (fun z => z <> None) (z_score_prix df).
Proof.
  intros Hp Hlen.
  assert (Hne : xs <> []) by (destruct xs; [simpl in Hlen; lia | discriminate]).
  destruct (Req_dec_T (sqdev xs) 0) as [E0|N0].
  - unfold z_score_prix. rewrite Hp, pd_std_Some by exact Hlen.
    rewrite E0, sqrt_quotient_zero. simpl.
    destruct (Reqb 0 0) eqn:E; [|apply Reqb_false in E; contradiction].
    apply Forall_forall. intros z Hz. apply in_map_iff in Hz.
    destruct Hz as (x & Hx & _). rewrite <- Hx. discriminate.
  - assert (Hs : 0 < sqdev xs) by (pose proof (sqdev_nonneg xs); lra).
    rewrite (z_score_prix_spread df xs Hp Hlen Hs).
    apply Forall_forall. intros z Hz. apply in_map_iff in Hz.
    destruct Hz as (x & Hx & _). rewrite <- Hx. discriminate.
Qed.


Lemma est_millesime_transformer df :
  map est_millesime (transformer_et_enrichir_donnees df)
  = map (fun z => n_gt z seuil_millesime) (z_score_prix df).
Proof.
  rewrite <- Z_Score_transformer, map_map.
  unfold transformer_et_enrichir_donnees. rewrite !map_map. reflexivity.
Qed.

(** When at least two rows are reconciled and all prices are equal, every
    z-score is 0: over exact reals [std_price] is then exactly 0 (a binary64
    standard deviation of equal prices may round to a non-zero value). *)
Lemma equal_prices_z_score_zero df c :
  (2 <= length df)%nat -> Forall (fun r => price r = Some c) df ->
  Forall (fun r => Z_Score_Prix r = Some 0) (transformer_et_enrichir_donnees df).
Proof.
  intros Hlen Hc.
  assert (Hp : map price df = map Some (map (fun _ => c) df)).
  { rewrite map_map. apply map_ext_in. intros r Hr.
    rewrite Forall_forall in Hc. auto. }
  assert (Hz : z_score_prix df = map (fun _ => Some 0) df).
  { apply (z_score_prix_const df _ c Hp).
    - now rewrite length_map.
    - apply Forall_forall. intros x Hx. apply in_map_iff in Hx.
      destruct Hx as (r & Hr & _). now symmetry. }
  rewrite <- Forall_map with (f := Z_Score_Prix) (P := fun z => z = Some 0).
  rewrite Z_Score_transformer, Hz.
  apply Forall_forall. intros z Hin. apply in_map_iff in Hin.
  destruct Hin as (r & Hr & _). now symmetry.
Qed.

(** C8, at a single ERP product priced 10 (no link, no web row): the
    reconciled frame has that one row, all its prices are equal, and its
    z-score is NaN, not 0. *)
Theorem single_row_z_score_is_nan :
  map (fun r => price (base r)) (run erp_10 [] []) = [Some 10]
  /\ map Z_Score_Prix (run erp_10 [] []) = [None]
  /\ map est_millesime (run erp_10 [] []) = [false].
Proof.
  assert (Hz : z_score_prix (charger_et_joindre_donnees erp_10 [] []) = [None])
    by (apply (z_score_prix_single _ 10); reflexivity).
  split; [|split].
  - unfold run. rewrite <- map_map, base_transformer. reflexivity.
  - unfold run. rewrite Z_Score_transformer. exact Hz.
  - unfold run. rewrite est_millesime_transformer, Hz. reflexivity.
Qed.

(** *** The premium and ordinary exports *)

Lemma premium_ordinaire_exclusive z :
  n_gt z seuil_millesime = true -> n_le z seuil_millesime = true -> False.
Proof.
  intros H1 H2. apply n_gt_true in H1. apply n_le_true in H2.
  destruct H1 as (x & -> & H1), H2 as (y & E & H2).
  inversion E; subst. lra.
Qed.

(** When every z-score is a number, the two exports split the frame. *)
Lemma premium_ordinaire_partition df :
  Forall (fun r => Z_Score_Prix r <> None) df ->
  Permutation (df_premium df ++ df_ordinaire df) df.
Proof.
  unfold df_premium, df_ordinaire.
  induction 1 as [|r l Hr _ IH]; simpl; [constructor|].
  destruct (Z_Score_Prix r) as [z|] eqn:E; [|congruence]. simpl.
  destruct (Rlt_dec seuil_millesime z) as [Hgt|Hle].
  - assert (H1 : Rltb seuil_millesime z = true) by now apply Rltb_true.
    assert (H2 : Rleb z seuil_millesime = false) by (apply Rleb_false; lra).
    rewrite H1, H2. simpl. now constructor.
  - assert (H1 : Rltb seuil_millesime z = false) by now apply Rltb_false.
    assert (H2 : Rleb z seuil_millesime = true) by (apply Rleb_true; lra).
    rewrite H1, H2. symmetry. apply Permutation_cons_app. now symmetry.
Qed.

Lemma priced_column (df : list coherent_row) :
  Forall (fun r => exists p, price r = Some p) df ->
  map price df = map Some (dropna (map price df)).
Proof.
  induction 1 as [|r l (p & E) _ IH]; simpl; [reflexivity|].
  rewrite E. simpl. now f_equal.
Qed.

(** With at least two reconciled rows, the exports of a run split its
    enriched frame: over exact reals every z-score is then a number. *)
Lemma run_partition df_erp df_web df_liaison :
  (2 <= length (charger_et_joindre_donnees df_erp df_web df_liaison))%nat ->
  Permutation (df_premium (run df_erp df_web df_liaison)
               ++ df_ordinaire (run df_erp df_web df_liaison))
              (run df_erp df_web df_liaison).
Proof.
  intros Hlen. apply premium_ordinaire_partition.
  rewrite <- Forall_map with (f := Z_Score_Prix) (P := fun z => z <> None).
  unfold run. rewrite Z_Score_transformer.
  set (df := charger_et_joindre_donnees df_erp df_web df_liaison) in *.
  assert (Hp : map price df = map Some (dropna (map price df)))
    by apply priced_column, charger_priced.
  apply (z_score_prix_defined df _ Hp).
  rewrite <- (length_map Some), <- Hp, length_map. exact Hlen.
Qed.

(** C10, at the same single product: the enriched frame has one row, and
    neither export holds it. *)
Theorem single_row_in_neither_export :
  length (run erp_10 [] []) = 1%nat
  /\ df_premium (run erp_10 [] []) = []
  /\ df_ordinaire (run erp_10 [] []) = []
  /\ vins_premium_csv (exporter_rapports (run erp_10 [] [])) = []
  /\ vins_ordinaires_csv (exporter_rapports (run erp_10 [] [])) = [].
Proof.
  assert (Hz : map Z_Score_Prix (run erp_10 [] []) = [None]).
  { unfold run. rewrite Z_Score_transformer.
    apply (z_score_prix_single _ 10). reflexivity. }
  destruct (run erp_10 [] []) as [|r [|r' l]] eqn:E; try discriminate.
  simpl in Hz. inversion Hz as [Hr].
  unfold exporter_rapports, df_premium, df_ordinaire. simpl.
  rewrite Hr. simpl. repeat split; reflexivity.
Qed.


(** *** Which standard deviation, which side *)

Lemma avg_0_2 : avg [0; 2] = 1.
Proof. unfold avg, Stats.sum. simpl. lra. Qed.

Lemma sqdev_0_2 : sqdev [0; 2] = 2.
Proof. unfold sqdev. rewrite avg_0_2. simpl. lra. Qed.

Lemma pop_std_0_2 : pop_std [0; 2] = 1.
Proof.
  unfold pop_std. rewrite sqdev_0_2. simpl.
  replace (2 / (1 + 1)) with 1 by lra. apply sqrt_1.
Qed.

Lemma avg_prices_10 : avg prices_10 = 9.
Proof. unfold avg, prices_10, Stats.sum. simpl. lra. Qed.

Lemma sqdev_prices_10 : sqdev prices_10 = 90.
Proof. unfold sqdev. rewrite avg_prices_10. unfold prices_10. simpl. lra. Qed.

Lemma pop_std_prices_10 : pop_std prices_10 = 3.
Proof.
  unfold pop_std. rewrite sqdev_prices_10. unfold prices_10. simpl.
  replace (90 / (1 + 1 + 1 + 1 + 1 + 1 + 1 + 1 + 1 + 1)) with (3 * 3) by lra.
  apply sqrt_square. lra.
Qed.

Lemma z_score_prix_0_2 : z_score_prix df_0_2 = [Some (-1); Some 1].
Proof.
  rewrite (z_score_prix_spread df_0_2 [0; 2]);
    [| reflexivity | simpl; lia | rewrite sqdev_0_2; lra].
  simpl. rewrite avg_0_2, pop_std_0_2. repeat f_equal; lra.
Qed.

(** C7, at two reconciled rows priced 0 and 2: the mean is 1 and
    [std_price], the sample standard deviation the code computes and prints,
    is the square root of 2; yet [zscore] divides by the population standard
    deviation 1, so the z-scores are -1 and 1 and not the deviations over
    [std_price] that the claim and the code's own "formule manuelle"
    give. *)
Theorem sample_std_z_score_fails :
  pd_mean (map price df_0_2) = Some 1
  /\ pd_std (map price df_0_2) = Some (sqrt 2)
  /\ map Z_Score_Prix (transformer_et_enrichir_donnees df_0_2)
     = [Some (-1); Some 1]
  /\ map Z_Score_Prix (transformer_et_enrichir_donnees df_0_2)
     <> map (fun x => Some (sample_z_score [0; 2] x)) [0; 2].
Proof.
  assert (Hstd : sqrt (sqdev [0; 2] / (INR (length [0; 2]) - 1)) = sqrt 2).
  { rewrite sqdev_0_2. simpl. f_equal. lra. }
  split; [|split; [|split]].
  - change (pd_mean (map price df_0_2)) with (Some (avg [0; 2])).
    now rewrite avg_0_2.
  - change (map price df_0_2) with (map Some [0; 2]).
    rewrite pd_std_Some by (simpl; lia). now rewrite Hstd.
  - rewrite Z_Score_transformer. apply z_score_prix_0_2.
  - rewrite Z_Score_transformer, z_score_prix_0_2. simpl.
    unfold sample_z_score. rewrite Hstd, avg_0_2.
    intros H. inversion H as [[H1 H2]].
    pose proof (sqrt_sqrt 2 ltac:(lra)) as Hs.
    pose proof (sqrt_lt_R0 2 ltac:(lra)) as Hpos.
    assert (E : sqrt 2 = 1).
    { apply (Rmult_eq_reg_l (/ sqrt 2)); [|apply Rinv_neq_0_compat; lra].
      rewrite Rinv_l by lra. unfold Rdiv in H2. lra. }
    rewrite E in Hs. lra.
Qed.

Lemma z_score_prix_10 :
  z_score_prix df_10
  = map (fun x => Some ((x - 9) / 3)) prices_10.
Proof.
  rewrite (z_score_prix_spread df_10 prices_10);
    [| reflexivity | simpl; lia | rewrite sqdev_prices_10; lra].
  now rewrite avg_prices_10, pop_std_prices_10.
Qed.

(** C9 fails: among nine rows priced 10 and one priced 0, the row priced 0
    has a z-score of -3, of magnitude above the threshold 2, and its flag
    [est_millesime] is false. *)
Lemma low_price_outlier_not_flagged :
  exists r z,
    In r (transformer_et_enrichir_donnees df_10)
    /\ price (base r) = Some 0
    /\ Z_Score_Prix r = Some z
    /\ z = -3
    /\ Rabs z > seuil_millesime
    /\ est_millesime r = false.
Proof.
  exists (enrichir (coherent_of 0, Some ((0 - 9) / 3))), ((0 - 9) / 3).
  assert (Hz : (0 - 9) / 3 = -3) by lra.
  split; [|split; [|split; [|split; [|split]]]].
  - unfold transformer_et_enrichir_donnees. rewrite z_score_prix_10.
    apply in_map. simpl. do 9 right. left. reflexivity.
  - reflexivity.
  - reflexivity.
  - exact Hz.
  - rewrite Hz. unfold seuil_millesime. rewrite Rabs_left by lra. lra.
  - simpl. rewrite Hz. apply Rltb_false. unfold seuil_millesime. lra.
Qed.

(** C9, amended: in the reporting pipeline the flag [est_millesime] of a row
    is true exactly when its signed z-score is a number above the threshold
    2; in the audit of [etl_vins_fix.py] a priced row is listed as an
    outlier exactly when the magnitude of its z-score exceeds the threshold
    3. *)
Theorem outlier_flag_is_one_sided df_coherent df_checked :
  Forall
    (fun r =>
       est_millesime r = true
       <-> exists z, Z_Score_Prix r = Some z /\ z > seuil_millesime)
    (transformer_et_enrichir_donnees df_coherent)
  /\ forall rz,
    In rz (EtlVinsFix.outliers df_checked)
    <-> In rz (combine (map fst (EtlVinsFix.priced df_checked))
                       (EtlVinsFix.z_scores df_checked))
        /\ exists z, snd rz = Some z
                     /\ Rabs z > EtlVinsFix.outlier_threshold.
Proof.
  split.
  - apply Forall_forall. intros r Hr.
    apply In_transformer in Hr. destruct Hr as (c & z & _ & ->). simpl.
    rewrite n_gt_true. split; intros (x & E & H); exists x; split; auto.
  - intros rz. unfold EtlVinsFix.outliers. rewrite filter_In, n_gt_true.
    split; intros [Hin (x & E & H)]; (split; [exact Hin|]).
    + destruct (snd rz) as [y|]; [|discriminate]. simpl in E.
      inversion E; subst. exists y. split; [reflexivity | exact H].
    + rewrite E. simpl. exists (Rabs x). split; [reflexivity | exact H].
Qed.


End VinsProps.

(** ** Keys, duplicate marking and duplicate removal *)

Module KeyFacts.

Lemma zkey_eqb_eq a b : zkey_eqb a b = true <-> a = b.
Proof.
unfold zkey_eqb, okey_eqb. destruct a as [x|], b as [y|];
  try (split; [discriminate | congruence]); try tauto.
rewrite Z.eqb_eq. split; congruence.
Qed.

Lemma skey_eqb_eq a b : skey_eqb a b = true <-> a = b.
Proof.
unfold skey_eqb, okey_eqb. destruct a as [x|], b as [y|];
  try (split; [discriminate | congruence]); try tauto.
rewrite String.eqb_eq. split; congruence.
Qed.

Lemma count_true_cons b bs :
  count_true (b :: bs) = ((if b then 1 else 0) + count_true bs)%nat.
Proof. unfold count_true. simpl. now destruct b. Qed.

Section Reflecting.
Context {A T : Type}.
Variable eqb : A -> A -> bool.
Variable key : T -> A.
Hypothesis eqb_eq : forall a b, eqb a b = true <-> a = b.

Lemma isin_In values a : isin eqb values a = true <-> In a values.
Proof.
unfold isin. rewrite existsb_exists. split.
- intros (x & Hx & E). apply eqb_eq in E. now subst.
- intros H. exists a. split; [exact H | now apply eqb_eq].
Qed.

Lemma isin_not_In values a : isin eqb values a = false <-> ~ In a values.
Proof.
rewrite <- isin_In. destruct (isin eqb values a); split; congruence.
Qed.

(** [duplicated] marks no row exactly when the keys are pairwise distinct
    (and distinct from the keys already seen). *)
Lemma duplicated_from_none keys :
  forall seen,
    count_true (duplicated_from eqb seen keys) = 0%nat
    <-> NoDup keys /\ (forall k, In k keys -> ~ In k seen).
Proof.
induction keys as [|k ks IH]; intros seen; simpl.
- split; [intros _; split; [constructor | tauto] | reflexivity].
- unfold count_true in *. simpl.
  destruct (isin eqb seen k) eqn:E; simpl.
  + split; [discriminate|]. intros [_ H]. apply isin_In in E.
    exfalso. apply (H k); auto.
  + apply isin_not_In in E. rewrite IH. split.
    * intros [Hnd Hs]. split.
      -- constructor; [|exact Hnd]. intros Hin. apply (Hs k Hin). now left.
      -- intros x [<-|Hx]; [exact E|]. intros Hin. apply (Hs x Hx). now right.
    * intros [Hnd Hs]. inversion Hnd as [|? ? Hk Hnd']; subst. split; [exact Hnd'|].
      intros x Hx [<-|Hin]; [contradiction|]. apply (Hs x); auto.
Qed.

(** The rows [duplicated] marks are the rows [drop_duplicates] removes. *)
Lemma duplicated_plus_kept rows :
  forall seen seen',
    (forall x, isin eqb seen x = isin eqb seen' x) ->
    (count_true (duplicated_from eqb seen (map key rows))
     + length (drop_duplicates_from eqb key seen' rows))%nat
    = length rows.
Proof.
induction rows as [|r rs IH]; intros seen seen' Hs; simpl; [reflexivity|].
rewrite count_true_cons, (Hs (key r)).
destruct (isin eqb seen' (key r)) eqn:E; simpl.
- assert (H : (count_true (duplicated_from eqb (key r :: seen) (map key rs))
               + length (drop_duplicates_from eqb key seen' rs))%nat
              = length rs); [|lia].
  apply IH. intros x. simpl. rewrite Hs.
  destruct (eqb x (key r)) eqn:Ex; [|reflexivity].
  apply eqb_eq in Ex. subst. now rewrite E.
- assert (H : (count_true (duplicated_from eqb (key r :: seen) (map key rs))
               + length (drop_duplicates_from eqb key (key r :: seen') rs))%nat
              = length rs); [|lia].
  apply IH. intros x. simpl. now rewrite Hs.
Qed.

(** After [drop_duplicates] the first row of any key not yet seen is the
    first row of that key before. *)
Lemma find_drop_duplicates_from rows k :
  forall seen,
    ~ In k seen ->
    find (fun r => eqb (key r) k) (drop_duplicates_from eqb key seen rows)
    = find (fun r => eqb (key r) k) rows.
Proof.
induction rows as [|r rs IH]; intros seen Hk; simpl; [reflexivity|].
destruct (isin eqb seen (key r)) eqn:E.
- apply isin_In in E.
  destruct (eqb (key r) k) eqn:Ek.
  + apply eqb_eq in Ek. subst. contradiction.
  + now apply IH.
- simpl. destruct (eqb (key r) k) eqn:Ek; [reflexivity|].
  apply IH. intros [H|H]; [|contradiction].
  assert (eqb (key r) k = true) by now apply eqb_eq. congruence.
Qed.

Lemma drop_duplicates_from_NoDup rows :
  forall seen,
    NoDup (map key (drop_duplicates_from eqb key seen rows))
    /\ forall r, In r (drop_duplicates_from eqb key seen rows) ->
                 In r rows /\ ~ In (key r) seen.
Proof.
induction rows as [|r rs IH]; intros seen; simpl.
- split; [constructor | tauto].
- destruct (isin eqb seen (key r)) eqn:E.
  + destruct (IH seen) as [Hnd Hin]. split; [exact Hnd|].
    intros x Hx. destruct (Hin x Hx). auto.
  + apply isin_not_In in E.
    destruct (IH (key r :: seen)) as [Hnd Hin]. split.
    * simpl. constructor; [|exact Hnd].
      intros Hk. apply in_map_iff in Hk. destruct Hk as (x & Ex & Hx).
      destruct (Hin x Hx) as [_ Hn]. apply Hn. left. now symmetry.
    * intros x [<-|Hx]; [auto|].
      destruct (Hin x Hx) as [H1 H2]. split; [auto|].
      intros H. apply H2. now right.
Qed.

(** [drop_duplicates] keeps the order of the rows it keeps. *)
Lemma drop_duplicates_from_filter rows :
  forall seen,
    exists keep : list bool,
      length keep = length rows
      /\ drop_duplicates_from eqb key seen rows
         = map fst (filter snd (combine rows keep)).
Proof.
induction rows as [|r rs IH]; intros seen; simpl.
- exists []. auto.
- destruct (isin eqb seen (key r)).
  + destruct (IH seen) as (keep & Hl & E). exists (false :: keep).
    simpl. split; [lia | exact E].
  + destruct (IH (key r :: seen)) as (keep & Hl & E). exists (true :: keep).
    simpl. split; [lia | now rewrite E].
Qed.

End Reflecting.

End KeyFacts.
Import KeyFacts.

(** ** The audited pipeline as a whole *)

Module FixExtras.
Import EtlVinsFix.

(** [df_final] holds exactly the triples of an ERP row, a link and a web row
    of type "product" whose keys agree and are not null: the ERP row and the
    link share a [product_id], the link and the web row share a web
    identity. *)
Theorem transform_and_join_rows df_web df_erp df_liaison e l w :
  In (e, l, w) (fst (fst (fst (transform_and_join df_web df_erp df_liaison))))
  <-> In e df_erp /\ In l df_liaison /\ In w df_web
      /\ post_type w = Some "product"%string
      /\ (exists k, product_id e = Some k /\ liaison_product_id l = Some k)
      /\ (exists s, id_web l = Some s /\ sku w = Some s).
Proof.
simpl. rewrite In_merge_inner, In_merge_inner. simpl.
unfold web_products, liaison_clean. rewrite !filter_In.
rewrite zkey_eqb_eq, skey_eqb_eq, andb_true_iff.
unfold is_product, notna.
split.
- intros ((He & (Hl & Hn1 & Hn2) & Hk) & (Hw & Hp) & Hs).
  destruct (id_web l) as [s|]; [|discriminate].
  destruct (liaison_product_id l) as [k|]; [|discriminate].
  destruct (post_type w) as [t|]; [|discriminate].
  apply String.eqb_eq in Hp. subst t.
  repeat split; eauto.
- intros (He & Hl & Hw & Hp & (k & Ek & El) & (s & Es & Ew)).
  rewrite Ek, El, Es, Ew, Hp. repeat split; auto.
Qed.

Lemma final_sku_linked df_web df_erp df_liaison r :
  In r (fst (fst (fst (transform_and_join df_web df_erp df_liaison)))) ->
  In (sku (f_web r)) (map id_web (liaison_clean df_liaison)).
Proof.
intros Hr.
pose proof (FixProps.transform_and_join_linked df_web df_erp df_liaison) as H.
rewrite Forall_forall in H. apply (isin_In skey_eqb skey_eqb_eq). auto.
Qed.

Lemma final_product_linked df_web df_erp df_liaison r :
  In r (fst (fst (fst (transform_and_join df_web df_erp df_liaison)))) ->
  In (product_id (f_erp r)) (map liaison_product_id (liaison_clean df_liaison)).
Proof.
destruct r as [[e l] w]. simpl. intros Hr.
apply In_merge_inner in Hr. destruct Hr as (Hm & _ & _).
apply In_merge_inner in Hm. destruct Hm as (_ & Hl & Hk).
apply zkey_eqb_eq in Hk. unfold f_erp. simpl. rewrite Hk. now apply in_map.
Qed.

Lemma web_orphan_not_final df_web df_erp df_liaison w f :
  In w (web_without_erp (web_products df_web) (liaison_clean df_liaison)) ->
  In f (fst (fst (fst (transform_and_join df_web df_erp df_liaison)))) ->
  sku (f_web f) <> sku w.
Proof.
intros Hw Hf E.
unfold web_without_erp in Hw. apply filter_In in Hw. destruct Hw as [_ Hw].
apply negb_true_iff, (isin_not_In skey_eqb skey_eqb_eq) in Hw.
apply Hw. rewrite <- E. eapply final_sku_linked; eauto.
Qed.

(** The rows the audit reports as orphans never reach the reconciled
    frame: no row of [df_final] has the [product_id] of an ERP row of
    [erp_without_web], nor the [sku] of a web row of [web_without_erp]. *)
Theorem orphans_are_not_reconciled df_web df_erp df_liaison :
  let df_final := fst (fst (fst (transform_and_join df_web df_erp df_liaison))) in
  Forall (fun e => Forall (fun r => product_id (f_erp r) <> product_id e) df_final)
         (erp_without_web df_erp (liaison_clean df_liaison))
  /\ Forall (fun w => Forall (fun r => sku (f_web r) <> sku w) df_final)
            (web_without_erp (web_products df_web) (liaison_clean df_liaison)).
Proof.
cbv zeta. split; apply Forall_forall; intros x Hx; apply Forall_forall;
  intros r Hr E.
- unfold erp_without_web in Hx. apply filter_In in Hx. destruct Hx as [_ Hx].
  apply negb_true_iff, (isin_not_In zkey_eqb zkey_eqb_eq) in Hx.
  apply Hx. rewrite <- E. eapply final_product_linked; eauto.
- exact (web_orphan_not_final _ _ _ _ _ Hx Hr E).
Qed.

(** On the frames the pipeline hands to it, [handle_anomalies] removes
    nothing. *)
Lemma handle_anomalies_pipeline_noop df_web df_erp df_liaison n :
  let t := transform_and_join df_web df_erp df_liaison in
  let df := df_checked (run_data_quality_checks (fst (fst (fst t)))) in
  handle_anomalies df (snd (fst (fst t))) n
                   (web_without_erp (snd (fst (fst t))) (snd t)) = df.
Proof.
cbv zeta. rewrite FixProps.handle_anomalies_filter.
apply filter_all. apply Forall_forall. intros r Hr.
simpl in Hr. apply in_map_iff in Hr. destruct Hr as (f & <- & Hf).
apply negb_true_iff. apply (isin_not_In skey_eqb skey_eqb_eq).
unfold critical_unlinked_skus, f_sku. simpl. intros Hin.
apply in_map_iff in Hin. destruct Hin as (w & Ew & Hw).
exact (web_orphan_not_final df_web df_erp df_liaison w f Hw Hf (eq_sym Ew)).
Qed.

Lemma dq_passed_iff df_final :
  dq_passed (run_data_quality_checks df_final) = true
  <-> length df_final = expected_count
      /\ Rabs (calculated_ca (run_data_quality_checks df_final) - EXPECTED_CA)
         <= 1 / 100 + 1 / 100000 * Rabs EXPECTED_CA.
Proof.
rewrite <- FixProps.status_ca_iff.
unfold run_data_quality_checks. simpl.
rewrite andb_true_iff, length_map, Nat.eqb_eq.
unfold status_of. destruct (isclose _ _ _); split; intros [H1 H2];
  split; auto; discriminate.
Qed.

(** The run never prepares a migration past a failed gate: either no
    migratable frame is built and the migration stage is not entered, or the
    reconciled frame has 714 rows and its revenue is within
    0.01 + 1e-05 * 70568.60 of 70568.60, both statuses being successes. *)
Theorem etl_pipeline_migrates_only_through_gate web erp liaison :
  let r := etl_pipeline web erp liaison in
  (df_migratable r = None /\ ~ In PreparationMigration (stages r)
   /\ ~ In GestionAnomalies (stages r))
  \/ (final_count (report r) = 714%nat
      /\ Rabs (calculated_ca (report r) - EXPECTED_CA)
         <= 1 / 100 + 1 / 100000 * Rabs EXPECTED_CA
      /\ status_count (report r) = SUCCES
      /\ status_ca (report r) = SUCCES).
Proof.
cbv zeta.
assert (Hrep : report (etl_pipeline web erp liaison)
               = run_data_quality_checks
                   (fst (fst (fst (transform_and_join
                                     (map clean_web web) (map clean_erp erp)
                                     (map clean_liaison liaison)))))).
{ unfold etl_pipeline, load_and_clean_data, transform_and_join,
    run_advanced_dq_checks. cbv beta iota zeta.
  match goal with
  | |- context [negb (dq_passed ?x)] => destruct (dq_passed x)
  end; reflexivity. }
destruct (dq_passed (report (etl_pipeline web erp liaison))) eqn:E.
- right. rewrite Hrep in *.
  pose proof E as E'. apply dq_passed_iff in E'. destruct E' as [E1 E2].
  assert (Hca : status_ca (run_data_quality_checks
                  (fst (fst (fst (transform_and_join
                                    (map clean_web web) (map clean_erp erp)
                                    (map clean_liaison liaison)))))) = SUCCES)
    by now apply FixProps.status_ca_iff.
  split; [|split; [exact E2|split; [|exact Hca]]].
  + unfold run_data_quality_checks. simpl. rewrite length_map. exact E1.
  + unfold run_data_quality_checks. cbn [status_count].
    rewrite length_map, E1. reflexivity.
- left. destruct (FixProps.etl_pipeline_halts web erp liaison E) as [Hs Hm].
  rewrite Hs. split; [exact Hm|].
  split; simpl; intros [H|[H|[H|[]]]]; discriminate.
Qed.

(** When the gate passes, the migratable frame is the checked reconciled
    frame itself: on the frames of the pipeline neither correction of
    [handle_anomalies] removes a row. *)
Theorem etl_pipeline_migrates_checked_frame web erp liaison :
  df_migratable (etl_pipeline web erp liaison)
  = if dq_passed (report (etl_pipeline web erp liaison))
    then Some (df_checked (report (etl_pipeline web erp liaison)))
    else None.
Proof.
unfold etl_pipeline, load_and_clean_data, run_advanced_dq_checks.
pose proof (handle_anomalies_pipeline_noop
              (map clean_web web) (map clean_erp erp) (map clean_liaison liaison))
  as Hnoop.
cbv zeta in Hnoop.
destruct (transform_and_join (map clean_web web) (map clean_erp erp)
                             (map clean_liaison liaison))
  as [[[df_final wp] e] lc] eqn:Et.
simpl in Hnoop. cbv beta iota zeta.
destruct (dq_passed (run_data_quality_checks df_final)) eqn:E;
  cbn [negb report df_migratable]; rewrite E; [|reflexivity].
f_equal. apply Hnoop.
Qed.

(** [handle_anomalies] keeps, in order, exactly the rows whose [sku] is not
    the [sku] of a row of the orphan frame; the web frame and the duplicate
    count it is given have no effect on the frame it returns. *)
Theorem handle_anomalies_rows df w n o :
  (forall r, In r (handle_anomalies df w n o)
             <-> In r df /\ ~ In (f_sku r) (map sku o))
  /\ (forall w' n', handle_anomalies df w' n' o = handle_anomalies df w n o)
  /\ (length (handle_anomalies df w n o) <= length df)%nat.
Proof.
split; [|split].
- intros r. rewrite FixProps.handle_anomalies_filter, filter_In, negb_true_iff.
  rewrite (isin_not_In skey_eqb skey_eqb_eq). reflexivity.
- intros w' n'. now rewrite !FixProps.handle_anomalies_filter.
- rewrite FixProps.handle_anomalies_filter. apply filter_length_le.
Qed.

(** The duplicate counts of the audit are zero exactly when no key repeats:
    no [sku] among the web rows of type "product", no [product_id] among the
    ERP rows (two null keys count as a repeat). *)
Theorem duplicate_counts_zero_iff df_web_products df_erp :
  (web_duplicates df_web_products = 0%nat <-> NoDup (map sku df_web_products))
  /\ (erp_duplicates df_erp = 0%nat <-> NoDup (map product_id df_erp)).
Proof.
unfold web_duplicates, erp_duplicates, duplicated. split.
- rewrite (duplicated_from_none skey_eqb skey_eqb_eq). simpl. tauto.
- rewrite (duplicated_from_none zkey_eqb zkey_eqb_eq). simpl. tauto.
Qed.

(** Correction 1 removes as many rows as the audit counted duplicates: the
    frame it builds and the duplicate count add up to the web frame. *)
Theorem correction1_drops_duplicate_count df_web_products :
  (length (df_web_products_cleaned df_web_products
                                   (web_duplicates df_web_products))
   + web_duplicates df_web_products)%nat
  = length df_web_products.
Proof.
unfold df_web_products_cleaned.
destruct (0 <? web_duplicates df_web_products)%nat eqn:E.
- unfold web_duplicates, duplicated, drop_duplicates.
  rewrite Nat.add_comm.
  apply (duplicated_plus_kept skey_eqb sku skey_eqb_eq). reflexivity.
- apply Nat.ltb_ge in E. lia.
Qed.

(** The frame Correction 1 builds has no repeated [sku], holds only rows of
    the web frame, and looking a [sku] up in it returns the first row of that
    [sku] in the web frame. *)
Theorem correction1_keeps_first_rows df_web_products :
  let cleaned :=
    df_web_products_cleaned df_web_products (web_duplicates df_web_products) in
  NoDup (map sku cleaned)
  /\ (forall r, In r cleaned -> In r df_web_products)
  /\ forall k,
      find (fun r => skey_eqb (sku r) k) cleaned
      = find (fun r => skey_eqb (sku r) k) df_web_products.
Proof.
cbv zeta. unfold df_web_products_cleaned.
destruct (0 <? web_duplicates df_web_products)%nat eqn:E.
- unfold drop_duplicates.
  destruct (drop_duplicates_from_NoDup skey_eqb sku skey_eqb_eq
                                       df_web_products []) as [Hnd Hin].
  split; [exact Hnd|]. split.
  + intros r Hr. now destruct (Hin r Hr).
  + intros k. apply (find_drop_duplicates_from skey_eqb sku skey_eqb_eq).
    simpl. tauto.
- apply Nat.ltb_ge in E.
  assert (H0 : web_duplicates df_web_products = 0%nat) by lia.
  unfold web_duplicates, duplicated in H0.
  apply (duplicated_from_none skey_eqb skey_eqb_eq) in H0.
  split; [tauto|]. split; auto.
Qed.


End FixExtras.

(** ** Key cleaning *)

Module CleanFacts.
Import EtlVinsFix.

(** [lstrip] seen on the list of characters of a text. *)
Local Notation chars := list_ascii_of_string.
Local Notation text := string_of_list_ascii.
Local Notation dropw l := (chars (lstrip (text l))).

Lemma dropw_cons c l :
  dropw (c :: l) = if is_space c then dropw l else c :: l.
Proof.
simpl. destruct (is_space c); [reflexivity|].
simpl. now rewrite list_ascii_of_string_of_list_ascii.
Qed.

Lemma chars_inj s t : chars s = chars t -> s = t.
Proof.
intros H. rewrite <- (string_of_list_ascii_of_string s),
            <- (string_of_list_ascii_of_string t). now rewrite H.
Qed.

Lemma dropw_idem l : dropw (dropw l) = dropw l.
Proof.
induction l as [|c l IH]; [reflexivity|].
rewrite dropw_cons. destruct (is_space c) eqn:E; [exact IH|].
rewrite dropw_cons, E. reflexivity.
Qed.

Lemma dropw_suffix l : exists p, l = p ++ dropw l.
Proof.
induction l as [|c l (p & IH)]; [now exists []|].
rewrite dropw_cons. destruct (is_space c).
- exists (c :: p). simpl. now rewrite <- IH.
- now exists [].
Qed.

Lemma dropw_length l : (length (dropw l) <= length l)%nat.
Proof.
destruct (dropw_suffix l) as (p & E). rewrite E at 2.
rewrite length_app. lia.
Qed.

Lemma dropw_fixed_head c l : dropw (c :: l) = c :: l -> is_space c = false.
Proof.
rewrite dropw_cons. destruct (is_space c); [|reflexivity].
intros H. pose proof (dropw_length l) as Hl. rewrite H in Hl.
simpl in Hl. lia.
Qed.

(** Removing trailing blanks from a text without leading blanks leaves it
    without leading blanks. *)
Lemma dropw_rstrip l :
  dropw l = l -> dropw (rev (dropw (rev l))) = rev (dropw (rev l)).
Proof.
intros Hl. destruct (dropw_suffix (rev l)) as (p & E).
assert (El : l = rev (dropw (rev l)) ++ rev p).
{ rewrite <- rev_app_distr, <- E. now rewrite rev_involutive. }
destruct (rev (dropw (rev l))) as [|c u]; [reflexivity|].
rewrite El in Hl. simpl in Hl. apply dropw_fixed_head in Hl.
now rewrite dropw_cons, Hl.
Qed.

Lemma chars_lstrip s : chars (lstrip s) = dropw (chars s).
Proof. now rewrite string_of_list_ascii_of_string. Qed.

Lemma chars_reverse s : chars (reverse s) = rev (chars s).
Proof. unfold reverse. apply list_ascii_of_string_of_list_ascii. Qed.

Lemma chars_strip s : chars (strip s) = rev (dropw (rev (dropw (chars s)))).
Proof.
unfold strip, reverse.
rewrite list_ascii_of_string_of_list_ascii, (string_of_list_ascii_of_string s).
reflexivity.
Qed.

Lemma lstrip_strip s : lstrip (strip s) = strip s.
Proof.
apply chars_inj. rewrite chars_lstrip, chars_strip.
apply dropw_rstrip, dropw_idem.
Qed.

Lemma strip_idem s : strip (strip s) = strip s.
Proof.
assert (H : dropw (chars (strip s)) = chars (strip s)).
{ rewrite <- chars_lstrip. now rewrite lstrip_strip. }
apply chars_inj. rewrite (chars_strip (strip s)), H.
rewrite chars_strip, rev_involutive, dropw_idem. reflexivity.
Qed.

Lemma rstrip_strip s : lstrip (reverse (strip s)) = reverse (strip s).
Proof.
apply chars_inj. rewrite chars_lstrip, chars_reverse, chars_strip.
rewrite rev_involutive. apply dropw_idem.
Qed.

(** A key cleaned by [clean_id_column] is either null or a text that is not
    empty, is not "nan" and has no blank at either end; cleaning it again
    gives the same key. *)
Theorem clean_id_normal_form c :
  clean_id (clean_id c) = clean_id c
  /\ forall s,
      clean_id c = Some s ->
      s <> ""%string /\ s <> "nan"%string
      /\ strip s = s /\ lstrip s = s /\ lstrip (reverse s) = reverse s.
Proof.
assert (Hnf : forall s,
           clean_id c = Some s ->
           s <> ""%string /\ s <> "nan"%string
           /\ strip s = s /\ lstrip s = s /\ lstrip (reverse s) = reverse s).
{ intros s. unfold clean_id.
  set (x := match c with Some s0 => s0 | None => "nan"%string end).
  cbv zeta.
  destruct (strip x =? "nan")%string eqn:E1; [discriminate|].
  destruct (strip x =? "")%string eqn:E2; [discriminate|].
  intros H. inversion H; subst s.
  apply String.eqb_neq in E1, E2.
  repeat split; auto using strip_idem, lstrip_strip, rstrip_strip. }
split; [|exact Hnf].
destruct (clean_id c) as [s|] eqn:E; [|reflexivity].
destruct (Hnf s eq_refl) as (H1 & H2 & H3 & _).
unfold clean_id. rewrite H3.
apply String.eqb_neq in H1, H2. now rewrite H1, H2.
Qed.

End CleanFacts.

(** ** Left joins *)

Module LeftJoinFacts.

Section LeftJoin.
Context {Lt Rt K : Type}.
Variable key_eqb : K -> K -> bool.
Variable left_on : Lt -> K.
Variable right_on : Rt -> K.

Lemma merge_left_cons l ls rs :
  merge_left key_eqb left_on right_on (l :: ls) rs
  = match matches key_eqb left_on right_on l rs with
    | [] => [(l, None)]
    | ms => map (fun r => (l, Some r)) ms
    end
    ++ merge_left key_eqb left_on right_on ls rs.
Proof. reflexivity. Qed.

(** Every left row is in the joined frame. *)
Lemma merge_left_keeps l ls rs :
  In l ls -> exists o, In (l, o) (merge_left key_eqb left_on right_on ls rs).
Proof.
intros Hl. unfold merge_left.
destruct (matches key_eqb left_on right_on l rs) as [|m ms] eqn:E.
- exists None. apply in_flat_map. exists l. rewrite E. simpl. auto.
- exists (Some m). apply in_flat_map. exists l. rewrite E. simpl. auto.
Qed.

(** The rows joined to one left row: at least one, all carrying it. *)
Lemma merge_left_block l rs :
  exists o os,
    match matches key_eqb left_on right_on l rs with
    | [] => [(l, None)]
    | ms => map (fun r => (l, Some r)) ms
    end = map (fun o => (l, o)) (o :: os).
Proof.
destruct (matches key_eqb left_on right_on l rs) as [|m ms].
- exists None, []. reflexivity.
- exists (Some m), (map Some ms). simpl. now rewrite map_map.
Qed.

(** A left join has at least as many rows satisfying a test on the left
    columns as the left frame. *)
Lemma merge_left_filter_length (P : Lt -> bool) ls rs :
  (length (filter P ls)
   <= length (filter (fun x => P (fst x))
                     (merge_left key_eqb left_on right_on ls rs)))%nat.
Proof.
induction ls as [|l ls IH]; [simpl; lia|].
rewrite merge_left_cons, filter_app, length_app.
destruct (merge_left_block l rs) as (o & os & ->).
simpl. destruct (P l); simpl; lia.
Qed.

(** When no left row has two matches, the left columns of the joined frame
    are the left frame. *)
Lemma merge_left_fst ls rs :
  (forall l, (length (matches key_eqb left_on right_on l rs) <= 1)%nat) ->
  map fst (merge_left key_eqb left_on right_on ls rs) = ls.
Proof.
intros H. induction ls as [|l ls IH]; [reflexivity|].
rewrite merge_left_cons, map_app, IH. specialize (H l).
destruct (matches key_eqb left_on right_on l rs) as [|m [|m' ms]];
  simpl in *; try reflexivity; lia.
Qed.

Hypothesis key_eqb_eq : forall a b, key_eqb a b = true <-> a = b.

Lemma matches_unique l rs :
  NoDup (map right_on rs) ->
  (length (matches key_eqb left_on right_on l rs) <= 1)%nat.
Proof.
unfold matches. induction rs as [|r rs IH]; simpl; [lia|].
intros Hnd. inversion Hnd as [|? ? Hr Hnd']; subst.
destruct (key_eqb (left_on l) (right_on r)) eqn:E; [|auto].
apply key_eqb_eq in E. simpl.
assert (Hnone : filter (fun r0 => key_eqb (left_on l) (right_on r0)) rs = []).
{ destruct (filter _ rs) as [|x xs] eqn:Ef; [reflexivity|exfalso].
  assert (Hx : In x (filter (fun r0 => key_eqb (left_on l) (right_on r0)) rs))
    by (rewrite Ef; now left).
  apply filter_In in Hx. destruct Hx as [Hx Hk]. apply key_eqb_eq in Hk.
  apply Hr. rewrite <- E, Hk. now apply in_map. }
rewrite Hnone. simpl. lia.
Qed.

End LeftJoin.

Lemma map_filter_map {A B C} (h : A -> B) (f : B -> C) (P : B -> bool) l :
  map f (filter P (map h l))
  = map (fun a => f (h a)) (filter (fun a => P (h a)) l).
Proof.
induction l as [|a l IH]; simpl; [reflexivity|].
destruct (P (h a)); simpl; now rewrite IH.
Qed.

Lemma filter_map_comm {A B} (h : A -> B) (P : B -> bool) l :
  filter P (map h l) = map h (filter (fun a => P (h a)) l).
Proof.
induction l as [|a l IH]; simpl; [reflexivity|].
destruct (P (h a)); simpl; now rewrite IH.
Qed.

End LeftJoinFacts.
Import LeftJoinFacts.


(** ** Sums of z-scores *)

Module ZScoreFacts.














End ZScoreFacts.
Import ZScoreFacts.

(** ** The reporting pipeline as a whole *)

Module VinsExtras.
Import EtlVins EtlVins2 VinsSamples.

(** The ERP row a joined row was built from. *)
Local Notation erp_of_joined :=
  (fun j : (erp_raw * option liaison_raw) * option web_sales => fst (fst j)).

Lemma charger_as_filter df_erp df_web df_liaison :
  charger_et_joindre_donnees df_erp df_web df_liaison
  = map nettoyer
        (filter (fun j => notna (to_numeric (erp_price (erp_of_joined j))))
                (df_joined df_erp df_liaison df_web)).
Proof. unfold charger_et_joindre_donnees. now rewrite filter_map_comm. Qed.

Lemma In_df_joined_erp df_erp df_web df_liaison j :
  In j (df_joined df_erp df_liaison df_web) -> In (erp_of_joined j) df_erp.
Proof.
destruct j as [[e l] w]. unfold df_joined, df_merged. intros H.
apply In_merge_left in H. destruct H as [H _].
apply In_merge_left in H. now destruct H as [H _].
Qed.

(** The two left joins lose no priced product and invent none: every ERP row
    whose price is a number has a reconciled row with its [product_id],
    price and stock columns, every reconciled row has the columns of an ERP
    row, and the reconciled frame has at least as many rows as there are
    priced ERP rows. *)
Theorem charger_keeps_priced_products df_erp df_web df_liaison :
  Forall
    (fun e =>
       forall p, to_numeric (erp_price e) = Some p ->
                 exists r,
                   In r (charger_et_joindre_donnees df_erp df_web df_liaison)
                   /\ product_id r = erp_key e /\ price r = Some p
                   /\ stock_quantity r = erp_stock_quantity e
                   /\ stock_status r = erp_stock_status e)
    df_erp
  /\ Forall
       (fun r =>
          exists e,
            In e df_erp /\ product_id r = erp_key e
            /\ price r = to_numeric (erp_price e)
            /\ stock_quantity r = erp_stock_quantity e
            /\ stock_status r = erp_stock_status e)
       (charger_et_joindre_donnees df_erp df_web df_liaison)
  /\ (length (filter (fun e => notna (to_numeric (erp_price e))) df_erp)
      <= length (charger_et_joindre_donnees df_erp df_web df_liaison))%nat.
Proof.
split; [|split].
- apply Forall_forall. intros e He p Hp.
  destruct (merge_left_keeps zkey_eqb erp_key liaison_key e df_erp df_liaison He)
    as (l & Hl).
  destruct (merge_left_keeps zkey_eqb merged_id_web ws_id_web (e, l)
                             _ (df_web_sales df_web) Hl) as (w & Hw).
  exists (nettoyer (e, l, w)). split; [|simpl; auto].
  rewrite charger_as_filter. apply in_map. apply filter_In.
  split; [exact Hw|]. simpl. now rewrite Hp.
- apply Forall_forall. intros r Hr. rewrite charger_as_filter in Hr.
  apply in_map_iff in Hr. destruct Hr as (j & <- & Hj).
  apply filter_In in Hj. destruct Hj as [Hj _].
  exists (erp_of_joined j). split; [now apply In_df_joined_erp in Hj|].
  simpl. auto.
- rewrite charger_as_filter, length_map. unfold df_joined, df_merged.
  etransitivity;
    [apply (merge_left_filter_length zkey_eqb erp_key liaison_key
              (fun e => notna (to_numeric (erp_price e))) df_erp df_liaison)|].
  apply (merge_left_filter_length zkey_eqb merged_id_web ws_id_web
           (fun m => notna (to_numeric (erp_price (fst m))))).
Qed.

(** When no [product_id] repeats in the linkage frame and no [sku] repeats in
    the web frame (null keys included), the reconciled frame lists the priced
    ERP rows one for one, in the order of the ERP frame. *)
Theorem charger_one_row_per_product df_erp df_web df_liaison :
  NoDup (map liaison_key df_liaison) ->
  NoDup (map (fun w => to_numeric (web_sku w)) df_web) ->
  map (fun r => (product_id r, price r, stock_quantity r, stock_status r))
      (charger_et_joindre_donnees df_erp df_web df_liaison)
  = map (fun e => (erp_key e, to_numeric (erp_price e),
                   erp_stock_quantity e, erp_stock_status e))
        (filter (fun e => notna (to_numeric (erp_price e))) df_erp).
Proof.
intros Hl Hw.
assert (Hws : NoDup (map ws_id_web (df_web_sales df_web))).
{ unfold df_web_sales. now rewrite map_map. }
assert (Hfst : map erp_of_joined (df_joined df_erp df_liaison df_web) = df_erp).
{ rewrite <- (map_map fst fst). unfold df_joined.
  rewrite (merge_left_fst zkey_eqb merged_id_web ws_id_web)
    by (intros m; now apply (matches_unique zkey_eqb _ _ zkey_eqb_eq)).
  unfold df_merged. apply merge_left_fst.
  intros e. now apply (matches_unique zkey_eqb _ _ zkey_eqb_eq). }
rewrite charger_as_filter, map_map. simpl.
rewrite <- Hfst at 2. rewrite map_filter_map. reflexivity.
Qed.

(** The one-for-one listing at the frames of scenario A: one link, one web
    row. *)
Lemma charger_one_row_per_product_scenario_A :
  map (fun r => (product_id r, price r, stock_quantity r, stock_status r))
      (charger_et_joindre_donnees
         [erp_of 1 (Parsed 10); erp_of 2 (Parsed (21 / 2))]
         [ {| web_sku := Parsed 1%Z; web_post_type := Some "product"%string;
              web_total_sales := Parsed 4 |} ]
         liaison_1)
  = map (fun e => (erp_key e, to_numeric (erp_price e),
                   erp_stock_quantity e, erp_stock_status e))
        (filter (fun e => notna (to_numeric (erp_price e)))
                [erp_of 1 (Parsed 10); erp_of 2 (Parsed (21 / 2))]).
Proof.
apply charger_one_row_per_product.
- simpl. constructor; [simpl; tauto | constructor].
- simpl. constructor; [simpl; tauto | constructor].
Defined.








End VinsExtras.

(** ** The price audit *)

Module AuditExtras.
Import EtlVinsFix.





End AuditExtras.

(** ** Unique keys through the inner joins *)

Module UniqueKeys.
Import EtlVinsFix.

Lemma NoDup_map_inj {A B} (f : A -> B) l a b :
  NoDup (map f l) -> In a l -> In b l -> f a = f b -> a = b.
Proof.
induction l as [|x l IH]; simpl; [tauto|].
intros Hnd Ha Hb E. inversion Hnd as [|? ? Hx Hnd']; subst.
destruct Ha as [->|Ha], Hb as [->|Hb]; auto.
- exfalso. apply Hx. rewrite E. now apply in_map.
- exfalso. apply Hx. rewrite <- E. now apply in_map.
Qed.

(** A column determined by a duplicate-free column over a frame whose rows
    are distinguished by it is duplicate-free as well. *)
Lemma NoDup_map_finer {A B C} (f : A -> B) (g : A -> C) l :
  NoDup (map g l) ->
  (forall a b, In a l -> In b l -> f a = f b -> g a = g b) ->
  NoDup (map f l).
Proof.
induction l as [|x l IH]; simpl; intros Hnd H; [constructor|].
inversion Hnd as [|? ? Hx Hnd']; subst. constructor.
- intros Hin. apply in_map_iff in Hin. destruct Hin as (y & E & Hy).
  apply Hx. rewrite <- (H y x); auto. now apply in_map.
- apply IH; auto.
Qed.

Section InnerJoin.
Context {Lt Rt K G : Type}.
Variable key_eqb : K -> K -> bool.
Variable left_on : Lt -> K.
Variable right_on : Rt -> K.
Variable g : Lt -> G.
Hypothesis key_eqb_eq : forall a b, key_eqb a b = true <-> a = b.

(** With duplicate-free right keys, an inner join keeps a duplicate-free left
    column duplicate-free. *)
Lemma merge_inner_NoDup_left ls rs :
  NoDup (map right_on rs) -> NoDup (map g ls) ->
  NoDup (map (fun x => g (fst x))
             (merge_inner key_eqb left_on right_on ls rs)).
Proof.
intros Hr. induction ls as [|l ls IH]; simpl; intros Hnd; [constructor|].
inversion Hnd as [|? ? Hl Hnd']; subst. specialize (IH Hnd').
pose proof (matches_unique key_eqb left_on right_on key_eqb_eq l rs Hr) as Hm.
rewrite map_app.
assert (Hrest : ~ In (g l) (map (fun x => g (fst x))
                               (merge_inner key_eqb left_on right_on ls rs))).
{ intros Hin. apply in_map_iff in Hin. destruct Hin as ([l' r'] & E & Hin).
  apply In_merge_inner in Hin. destruct Hin as (Hin & _).
  apply Hl. simpl in E. rewrite <- E. now apply in_map. }
destruct (matches key_eqb left_on right_on l rs) as [|m [|m' ms]];
  simpl in *; [exact IH | now constructor | lia].
Qed.
End InnerJoin.

(** When the audit finds no duplicate [product_id] in the ERP frame and no
    duplicate [sku] among the web products, and the cleaned linkage repeats
    neither a [product_id] nor a web identity, the reconciled frame has no
    two rows of the same [product_id] and no two rows of the same [sku]. *)
Theorem unique_sources_give_unique_rows df_web df_erp df_liaison :
  erp_duplicates df_erp = 0%nat ->
  web_duplicates (web_products df_web) = 0%nat ->
  NoDup (map liaison_product_id (liaison_clean df_liaison)) ->
  NoDup (map id_web (liaison_clean df_liaison)) ->
  let df_final := fst (fst (fst (transform_and_join df_web df_erp df_liaison))) in
  NoDup (map (fun r => product_id (f_erp r)) df_final)
  /\ NoDup (map (fun r => sku (f_web r)) df_final).
Proof.
intros He Hw Hlp Hlw. cbv zeta.
apply (duplicated_from_none zkey_eqb zkey_eqb_eq) in He. destruct He as [He _].
apply (duplicated_from_none skey_eqb skey_eqb_eq) in Hw. destruct Hw as [Hw _].
assert (Hpid : NoDup (map (fun r : final_row => product_id (f_erp r))
                          (fst (fst (fst (transform_and_join df_web df_erp
                                                             df_liaison)))))).
{ simpl.
  apply (merge_inner_NoDup_left skey_eqb (fun m => id_web (snd m)) sku
           (fun m : erp_row * liaison_row => product_id (fst m))
           skey_eqb_eq _ _ Hw).
  apply (merge_inner_NoDup_left zkey_eqb product_id liaison_product_id
           product_id zkey_eqb_eq _ _ Hlp He). }
split; [exact Hpid|].
apply (NoDup_map_finer _ (fun r : final_row => product_id (f_erp r)));
  [exact Hpid|].
intros [[e1 l1] w1] [[e2 l2] w2] H1 H2 E. simpl in H1, H2.
apply In_merge_inner in H1, H2.
destruct H1 as (Hm1 & _ & Hk1), H2 as (Hm2 & _ & Hk2).
apply In_merge_inner in Hm1, Hm2.
destruct Hm1 as (_ & Hl1 & Hp1), Hm2 as (_ & Hl2 & Hp2).
apply skey_eqb_eq in Hk1, Hk2. apply zkey_eqb_eq in Hp1, Hp2.
unfold f_erp, f_web in *. simpl in *.
assert (El : l1 = l2).
{ apply (NoDup_map_inj id_web _ _ _ Hlw Hl1 Hl2). congruence. }
congruence.
Qed.

(** Two products, each with its own link and its own web row: the sources
    have unique keys, and the two reconciled rows differ in [product_id] and
    in [sku]. *)
Lemma unique_sources_give_unique_rows_two_products :
  let df_web :=
    [ {| sku := Some "7"%string; post_type := Some "product"%string;
         post_title := Some "Cuvee A"%string; total_sales := 4 |};
      {| sku := Some "8"%string; post_type := Some "product"%string;
         post_title := Some "Cuvee B"%string; total_sales := 2 |} ] in
  let df_erp :=
    [ {| product_id := Some 1%Z; price := Some 10; stock_quantity := 5;
         stock_status := Some "instock"%string |};
      {| product_id := Some 2%Z; price := Some 12; stock_quantity := 3;
         stock_status := Some "instock"%string |} ] in
  let df_liaison :=
    [ {| liaison_product_id := Some 1%Z; id_web := Some "7"%string |};
      {| liaison_product_id := Some 2%Z; id_web := Some "8"%string |} ] in
  let df_final := fst (fst (fst (transform_and_join df_web df_erp df_liaison))) in
  map (fun r => (product_id (f_erp r), sku (f_web r))) df_final
  = [ (Some 1%Z, Some "7"%string); (Some 2%Z, Some "8"%string) ]
  /\ NoDup (map (fun r => product_id (f_erp r)) df_final)
  /\ NoDup (map (fun r => sku (f_web r)) df_final).
Proof.
cbv zeta. split; [reflexivity|].
apply unique_sources_give_unique_rows.
- reflexivity.
- reflexivity.
- simpl. repeat constructor; simpl; intuition discriminate.
- simpl. repeat constructor; simpl; intuition discriminate.
Defined.

End UniqueKeys.
